(** * Save/Load manager for Unreal Engine: a shallow embedding

    The development models [USaveLoadManager] (SaveLoadManager.h and
    SaveLoadManager.cpp): the typed value codecs, the record codec of
    [FSerializedData] and the three store operations [SaveData], [LoadData]
    and [DeleteData].

    The manager is written against the engine's memory archives
    ([FMemoryReader], [FMemoryWriter]) and its file helpers.  The part of the
    engine the manager calls is modelled first (module [Archive]); the
    manager itself follows, function by function. *)

From Stdlib Require Import ZArith Strings.Byte Strings.Ascii Strings.String.
From stdpp Require Import gmap list.

Local Open Scope Z_scope.

(** ** Engine types *)

(** [uint8] is [Byte.byte]; a [TArray<uint8>] is a list of bytes.  A [TCHAR]
    is a 16-bit code unit; an [FString] is the list of its code units, without
    the terminating NUL that the engine keeps at the end of the array. *)
Abbreviation uint8 := byte (only parsing).
Abbreviation TCHAR := Z (only parsing).
Abbreviation FString := (list Z) (only parsing).

Definition MAX_int32 : Z := 2147483647.
Definition MIN_int32 : Z := -2147483648.

Definition uint8_to_Z (b : uint8) : Z := Z.of_N (Byte.to_N b).

(** Conversion to [uint8] keeps the low eight bits. *)
Definition uint8_of_Z (z : Z) : uint8 :=
  match Byte.of_N (Z.to_N (z mod 256)) with
  | Some b => b
  | None => x00
  end.

(** What a call can come to.  [Unspecified] stands for every execution that
    leaves what this model describes: a value is taken from storage that was
    never written (a destination the failed read left untouched), an engine
    [check] fails, or a buffer passes the 2 GiB limit of [TArray]. *)
Inductive outcome (A : Type) : Type :=
| Returned (a : A)
| Unspecified.
Arguments Returned {A} a.
Arguments Unspecified {A}.

Module Archive.

(** *** Fixed-width numbers, least significant byte first *)

Fixpoint le_bytes (width : nat) (v : Z) : list uint8 :=
  match width with
  | O => []
  | S width' => uint8_of_Z (v mod 256) :: le_bytes width' (v / 256)
  end.

Fixpoint le_value (bs : list uint8) : Z :=
  match bs with
  | [] => 0
  | b :: bs' => uint8_to_Z b + 256 * le_value bs'
  end.

(** Two's complement reading of an unsigned [bits]-bit number. *)
Definition to_signed (bits : Z) (u : Z) : Z :=
  if u <? 2 ^ (bits - 1) then u else u - 2 ^ bits.

(** *** FMemoryReader

    The reader holds the byte array and an offset; [Remaining] is the array
    from the offset on, so that [TotalSize - Offset] is its length.  The
    error flag is [ArIsError]. *)
Record FMemoryReader : Type := {
  Remaining : list uint8;
  ArIsError : bool
}.

Definition MemoryReader (Bytes : list uint8) : FMemoryReader :=
  {| Remaining := Bytes; ArIsError := false |}.

Definition SetError (Ar : FMemoryReader) : FMemoryReader :=
  {| Remaining := Remaining Ar; ArIsError := true |}.

(** [AtEnd]: the offset has reached the total size. *)
Definition AtEnd (Ar : FMemoryReader) : bool :=
  match Remaining Ar with
  | [] => true
  | _ :: _ => false
  end.

(** [Serialize(Data, Num)] of the reader: nothing happens when [Num] is zero
    or the error flag is set; the bytes are copied and the offset advanced
    only when [Num] bytes are left, otherwise the error flag is set and the
    offset stays.  [None] says that the destination was not written. *)
Definition Serialize (Num : nat) (Ar : FMemoryReader)
  : option (list uint8) * FMemoryReader :=
  if (Num =? 0)%nat || ArIsError Ar then (None, Ar)
  else if (Num <=? length (Remaining Ar))%nat
       then (Some (take Num (Remaining Ar)),
             {| Remaining := drop Num (Remaining Ar); ArIsError := false |})
       else (None, SetError Ar).

(** [Ar << Value] for a number of [width] bytes whose destination holds
    [Value] before the call. *)
Definition ReadLE (width : nat) (Value : Z) (Ar : FMemoryReader)
  : Z * FMemoryReader :=
  match Serialize width Ar with
  | (Some bs, Ar') => (le_value bs, Ar')
  | (None, Ar') => (Value, Ar')
  end.

Definition ReadInt32 (Value : Z) (Ar : FMemoryReader) : Z * FMemoryReader :=
  let '(u, Ar') := ReadLE 4 (Value mod 2 ^ 32) Ar in (to_signed 32 u, Ar').

(** [Ar << Value] for a [uint8]. *)
Definition ReadUInt8 (Value : uint8) (Ar : FMemoryReader)
  : uint8 * FMemoryReader :=
  match Serialize 1 Ar with
  | (Some (b :: _), Ar') => (b, Ar')
  | (_, Ar') => (Value, Ar')
  end.

(** [FArchive::SerializeBool]: a bool travels as a 32-bit number; a value
    above one sets the error flag, and any value but zero reads as true. *)
Definition ReadBool (D : bool) (Ar : FMemoryReader) : bool * FMemoryReader :=
  let '(OldUBoolValue, Ar') := ReadLE 4 (if D then 1 else 0) Ar in
  (negb (OldUBoolValue =? 0),
   if 1 <? OldUBoolValue then SetError Ar' else Ar').

(** *** FString *)

Definition IsPureAnsi (s : FString) : bool := forallb (fun c => c <=? 127) s.

(** Saving: the count of code units with the terminator, positive before
    8-bit characters and negated before 16-bit code units; an empty string
    is the count zero alone. *)
Definition WriteFString (A : FString) : list uint8 :=
  match A with
  | [] => le_bytes 4 0
  | _ :: _ =>
      let Num := Z.of_nat (length A) + 1 in
      if IsPureAnsi A
      then le_bytes 4 Num ++ map uint8_of_Z A ++ [x00]
      else le_bytes 4 (- Num) ++ flat_map (le_bytes 2) A ++ [x00; x00]
  end.

Fixpoint ucs2_units (bs : list uint8) : list TCHAR :=
  match bs with
  | lo :: hi :: bs' => (uint8_to_Z lo + 256 * uint8_to_Z hi) :: ucs2_units bs'
  | _ => []
  end.

(** The loader ends a 16-bit string at the first code unit 0xFFFF. *)
Fixpoint TrimAt (c : TCHAR) (s : FString) : FString :=
  match s with
  | [] => []
  | x :: s' => if x =? c then [] else x :: TrimAt c s'
  end.

(** Loading into an empty [FString].  The count is read into [SaveNum]
    (zero stays when the read fails); [MIN_int32] sets the error flag and
    leaves the string; the last character read is overwritten by NUL.
    [Unspecified]: the character read failed and left more than the
    terminator unwritten; or the characters hold a NUL before the end, or
    an 8-bit character above 0x7F, which this model of [FString] does not
    cover. *)
Definition ReadFString (Ar : FMemoryReader) : outcome (FString * FMemoryReader) :=
  let '(SaveNum, Ar1) := ReadInt32 0 Ar in
  if SaveNum =? MIN_int32 then Returned ([], SetError Ar1)
  else
    let bLoadUnicodeChar := SaveNum <? 0 in
    let SaveNum := Z.to_nat (Z.abs SaveNum) in
    if (SaveNum =? 0)%nat then Returned ([], Ar1)
    else if bLoadUnicodeChar then
      match Serialize (SaveNum * 2) Ar1 with
      | (Some bs, Ar2) =>
          let A := take (SaveNum - 1) (ucs2_units bs) in
          if forallb (fun c => negb (c =? 0)) A
          then Returned (TrimAt 65535 A, Ar2)
          else Unspecified
      | (None, Ar2) =>
          if (SaveNum =? 1)%nat then Returned ([], Ar2) else Unspecified
      end
    else
      match Serialize SaveNum Ar1 with
      | (Some bs, Ar2) =>
          let A := map uint8_to_Z (take (SaveNum - 1) bs) in
          if forallb (fun c => negb (c =? 0) && (c <=? 127)) A
          then Returned (A, Ar2)
          else Unspecified
      | (None, Ar2) =>
          if (SaveNum =? 1)%nat then Returned ([], Ar2) else Unspecified
      end.

(** [FString::operator==] ignores the case of ASCII letters. *)
Definition ToLower (c : TCHAR) : TCHAR :=
  if (65 <=? c) && (c <=? 90) then c + 32 else c.

Fixpoint FString_eq (a b : FString) : bool :=
  match a, b with
  | [], [] => true
  | x :: a', y :: b' => (ToLower x =? ToLower y) && FString_eq a' b'
  | _, _ => false
  end.

(** *** TArray<uint8> *)

Definition WriteTArray (A : list uint8) : list uint8 :=
  le_bytes 4 (Z.of_nat (length A)) ++ A.

(** Loading: the count is read into [SerializeNum] (zero stays when the read
    fails), a zero count empties the array.  [Unspecified]: the count is
    negative (the engine's [check]), or the element read failed and left
    the resized array unwritten. *)
Definition ReadTArray (Ar : FMemoryReader) : outcome (list uint8 * FMemoryReader) :=
  let '(SerializeNum, Ar1) := ReadInt32 0 Ar in
  if SerializeNum =? 0 then Returned ([], Ar1)
  else if SerializeNum <? 0 then Unspecified
  else
    match Serialize (Z.to_nat SerializeNum) Ar1 with
    | (Some bs, Ar2) => Returned (bs, Ar2)
    | (None, _) => Unspecified
    end.

(** *** FMemoryWriter

    The writer appends to its byte array; it stops the program when the
    array would reach [MAX_int32] bytes. *)
Definition MemoryWriter (Bytes : list uint8) : outcome (list uint8) :=
  if MAX_int32 <=? Z.of_nat (length Bytes) then Unspecified else Returned Bytes.

End Archive.
Import Archive.

(** ** The file helpers of the engine

    The state outside the manager: the files by path, the paths the platform
    refuses to open for reading or for writing, the journal of the calls of
    [FFileHelper::SaveArrayToFile] and the lines the manager writes to
    [LogTemp]. *)

Inductive ELogVerbosity : Type := Error | Warning | Log.

Record LogLine : Type := {
  Verbosity : ELogVerbosity;
  Format : string;
  Argument : FString
}.

Record World : Type := {
  Files : gmap FString (list uint8);
  ReadDenied : gset FString;
  WriteDenied : gset FString;
  WriteJournal : list (FString * list uint8);
  LogTemp : list LogLine
}.

Definition UE_LOG (v : ELogVerbosity) (fmt : string) (arg : FString) (w : World)
  : World :=
  {| Files := Files w; ReadDenied := ReadDenied w; WriteDenied := WriteDenied w;
     WriteJournal := WriteJournal w;
     LogTemp := LogTemp w ++ [{| Verbosity := v; Format := fmt; Argument := arg |}] |}.

(** [FPaths::FileExists] *)
Definition FileExists (Path : FString) (w : World) : bool :=
  match Files w !! Path with
  | Some _ => true
  | None => false
  end.

(** [FFileHelper::LoadFileToArray]: [None] when the call reports failure. *)
Definition LoadFileToArray (Path : FString) (w : World) : option (list uint8) :=
  if decide (Path ∈ ReadDenied w) then None else Files w !! Path.

(** [FFileHelper::SaveArrayToFile]: the file is replaced by the array unless
    the path cannot be opened for writing; every call enters the journal. *)
Definition SaveArrayToFile (Array : list uint8) (Path : FString) (w : World)
  : bool * World :=
  let denied := bool_decide (Path ∈ WriteDenied w) in
  (negb denied,
   {| Files := if denied then Files w else <[Path := Array]> (Files w);
      ReadDenied := ReadDenied w; WriteDenied := WriteDenied w;
      WriteJournal := WriteJournal w ++ [(Path, Array)];
      LogTemp := LogTemp w |}).

(** ** SaveLoadManager.h: data types *)

(** [enum class EDataType : uint8]: the archive stores the underlying
    [uint8], and the enumerators are its values 0 to 8. *)
Abbreviation EDataType := byte (only parsing).
Definition FloatType : EDataType := x00.
Definition BoolType : EDataType := x01.
Definition IntType : EDataType := x02.
Definition FStringType : EDataType := x03.
Definition EnumType : EDataType := x04.
Definition ActorType : EDataType := x05.
Definition VectorType : EDataType := x06.
Definition RotatorType : EDataType := x07.
Definition TransformType : EDataType := x08.

Record FSerializedData : Type := {
  DataType : EDataType;
  Key : FString;
  Data : list uint8
}.

(** [operator<<(FArchive&, FSerializedData&)] on a writer: the bytes that
    [Ar << DataType; Ar << Key; Ar << Data] appends. *)
Definition WriteFSerializedData (SerializedData : FSerializedData) : list uint8 :=
  [DataType SerializedData]
  ++ WriteFString (Key SerializedData)
  ++ WriteTArray (Data SerializedData).

(** The same operator on a reader, into a fresh [FSerializedData]: its
    [DataType] is not initialised, so a failed read of the tag leaves it
    [Unspecified]; [Key] and [Data] start empty. *)
Definition ReadFSerializedData (Ar : FMemoryReader)
  : outcome (FSerializedData * FMemoryReader) :=
  match Serialize 1 Ar with
  | (Some (tag :: _), Ar1) =>
      match ReadFString Ar1 with
      | Returned (key, Ar2) =>
          match ReadTArray Ar2 with
          | Returned (data, Ar3) =>
              Returned ({| DataType := tag; Key := key; Data := data |}, Ar3)
          | Unspecified => Unspecified
          end
      | Unspecified => Unspecified
      end
  | _ => Unspecified
  end.

(** ** SaveLoadManager.cpp: the store *)

(** [while (!MemoryReader.AtEnd()) { MemoryReader << SerializedData;
    ExistingData.Add(SerializedData); }].  Every turn that returns takes at
    least the tag byte, so the length of the array bounds the turns. *)
Fixpoint ReadExistingData (fuel : nat) (Ar : FMemoryReader)
    (ExistingData : list FSerializedData) : outcome (list FSerializedData) :=
  if AtEnd Ar then Returned ExistingData
  else
    match fuel with
    | O => Unspecified
    | S fuel' =>
        match ReadFSerializedData Ar with
        | Returned (SerializedData, Ar') =>
            ReadExistingData fuel' Ar' (ExistingData ++ [SerializedData])
        | Unspecified => Unspecified
        end
    end.

(** [TArray::RemoveAll(Predicate)] keeps the other elements in their order. *)
Definition RemoveAll {A : Type} (Predicate : A -> bool) (l : list A) : list A :=
  List.filter (fun x => negb (Predicate x)) l.

(** [for (FSerializedData& DataEntry : ExistingData) MemoryWriter << DataEntry;]
    on the emptied [ByteArray]. *)
Definition WriteExistingData (ExistingData : list FSerializedData)
  : outcome (list uint8) :=
  MemoryWriter
    (fold_left (fun Bytes DataEntry => Bytes ++ WriteFSerializedData DataEntry)
               ExistingData []).

Definition SaveData (Key_ : FString) (Data_ : list uint8) (DataType_ : EDataType)
    (SaveFilePath : FString) (w : World) : outcome bool * World :=
  let NewData := {| DataType := DataType_; Key := Key_; Data := Data_ |} in
  if FileExists SaveFilePath w then
    match LoadFileToArray SaveFilePath w with
    | Some ByteArray =>
        match ReadExistingData (length ByteArray) (MemoryReader ByteArray) [] with
        | Returned ExistingData =>
            let ExistingData :=
              RemoveAll (fun Entry => FString_eq (Key Entry) Key_) ExistingData in
            let ExistingData := ExistingData ++ [NewData] in
            match WriteExistingData ExistingData with
            | Returned ByteArray' =>
                let '(bSaved, w') := SaveArrayToFile ByteArray' SaveFilePath w in
                (Returned bSaved, w')
            | Unspecified => (Unspecified, w)
            end
        | Unspecified => (Unspecified, w)
        end
    | None => (Returned false, w)
    end
  else
    match WriteExistingData [NewData] with
    | Returned ByteArray =>
        let '(bSaved, w') := SaveArrayToFile ByteArray SaveFilePath w in
        (Returned bSaved, w')
    | Unspecified => (Unspecified, w)
    end.

(** The loop of [LoadData]: the first record whose key equals [Key_], or
    [None] at the end of the array. *)
Fixpoint FindData (fuel : nat) (Key_ : FString) (Ar : FMemoryReader)
  : outcome (option FSerializedData) :=
  if AtEnd Ar then Returned None
  else
    match fuel with
    | O => Unspecified
    | S fuel' =>
        match ReadFSerializedData Ar with
        | Returned (SerializedData, Ar') =>
            if FString_eq (Key SerializedData) Key_
            then Returned (Some SerializedData)
            else FindData fuel' Key_ Ar'
        | Unspecified => Unspecified
        end
    end.

(** [LoadData] returns its [bool] with the two output parameters, which
    hold [OutData] and [OutDataType] before the call. *)
Definition LoadData (Key_ : FString) (OutData : list uint8) (OutDataType : EDataType)
    (SaveFilePath : FString) (w : World)
  : outcome (bool * list uint8 * EDataType) * World :=
  if FileExists SaveFilePath w then
    match LoadFileToArray SaveFilePath w with
    | Some ByteArray =>
        match FindData (length ByteArray) Key_ (MemoryReader ByteArray) with
        | Returned (Some SerializedData) =>
            (Returned (true, Data SerializedData, DataType SerializedData), w)
        | Returned None => (Returned (false, OutData, OutDataType), w)
        | Unspecified => (Unspecified, w)
        end
    | None =>
        (Returned (false, OutData, OutDataType),
         UE_LOG Error "Failed to load file: %s" SaveFilePath w)
    end
  else
    (Returned (false, OutData, OutDataType),
     UE_LOG Warning "File not found: %s" SaveFilePath w).

Definition DeleteData (Key_ : FString) (SaveFilePath : FString) (w : World)
  : outcome bool * World :=
  if FileExists SaveFilePath w then
    match LoadFileToArray SaveFilePath w with
    | Some ByteArray =>
        match ReadExistingData (length ByteArray) (MemoryReader ByteArray) [] with
        | Returned ExistingData =>
            let ExistingData :=
              RemoveAll (fun Entry => FString_eq (Key Entry) Key_) ExistingData in
            match WriteExistingData ExistingData with
            | Returned ByteArray' =>
                let '(bSaved, w') := SaveArrayToFile ByteArray' SaveFilePath w in
                (Returned bSaved, w')
            | Unspecified => (Unspecified, w)
            end
        | Unspecified => (Unspecified, w)
        end
    | None => (Returned false, w)
    end
  else (Returned false, w).

(** ** SaveLoadManager.h: the typed value codecs *)

(** A [float] is carried as its IEEE-754 binary32 bit pattern, which is all
    the archive touches; [0.0f] is the pattern zero. *)
Abbreviation float := Z (only parsing).

Definition FloatToByteArray (Value : float) : list uint8 := le_bytes 4 Value.

Definition ByteArrayToFloat (ByteArray : list uint8) : float :=
  let Value := 0 in
  fst (ReadLE 4 Value (MemoryReader ByteArray)).

Definition BoolToByteArray (Value : bool) : list uint8 :=
  le_bytes 4 (if Value then 1 else 0).

Definition ByteArrayToBool (ByteArray : list uint8) : bool :=
  let Value := false in
  fst (ReadBool Value (MemoryReader ByteArray)).

Definition IntToByteArray (Value : Z) : list uint8 := le_bytes 4 Value.

Definition ByteArrayToInt (ByteArray : list uint8) : Z :=
  let Value := 0 in
  fst (ReadInt32 Value (MemoryReader ByteArray)).

Definition FStringToByteArray (Value : FString) : outcome (list uint8) :=
  MemoryWriter (WriteFString Value).

Definition ByteArrayToFString (ByteArray : list uint8) : outcome FString :=
  match ReadFString (MemoryReader ByteArray) with
  | Returned (Value, _) => Returned Value
  | Unspecified => Unspecified
  end.

(** The four overloads of [EnumToByteArray]: the [uint8] one writes through
    the archive, the wider ones copy the value's bytes as they lie in memory
    (least significant first on the engine's platforms). *)
Definition EnumToByteArray_uint8 (EnumValue : uint8) : list uint8 := [EnumValue].
Definition EnumToByteArray_uint16 (EnumValue : Z) : list uint8 := le_bytes 2 EnumValue.
Definition EnumToByteArray_uint32 (EnumValue : Z) : list uint8 := le_bytes 4 EnumValue.
Definition EnumToByteArray_uint64 (EnumValue : Z) : list uint8 := le_bytes 8 EnumValue.

Definition ByteArrayToEnum (ByteArray : list uint8) : uint8 :=
  let EnumValue := x00 in
  fst (ReadUInt8 EnumValue (MemoryReader ByteArray)).

(** [FTransform] is declared by the engine: a rotation quaternion, a
    translation and a scale, written in this order component by component.
    The width of a component in bytes ([FReal]: 4 for float, 8 for double)
    is a parameter; a component is carried as its bit pattern. *)
Record FQuat : Type := { QX : Z; QY : Z; QZ : Z; QW : Z }.
Record FVector : Type := { VX : Z; VY : Z; VZ : Z }.
Record FTransform : Type := {
  Rotation : FQuat;
  Translation : FVector;
  Scale3D : FVector
}.

Section Transform.
Variable FReal : nat.

Definition TransformComponents (Value : FTransform) : list Z :=
  [QX (Rotation Value); QY (Rotation Value); QZ (Rotation Value); QW (Rotation Value);
   VX (Translation Value); VY (Translation Value); VZ (Translation Value);
   VX (Scale3D Value); VY (Scale3D Value); VZ (Scale3D Value)].

Definition TransformToByteArray (Value : FTransform) : list uint8 :=
  flat_map (le_bytes FReal) (TransformComponents Value).

(** Reads [n] components one after the other; [None] as soon as one read
    finds fewer than [FReal] bytes. *)
Fixpoint ReadComponents (n : nat) (Ar : FMemoryReader) : option (list Z) :=
  match n with
  | O => Some []
  | S n' =>
      match Serialize FReal Ar with
      | (Some bs, Ar') =>
          match ReadComponents n' Ar' with
          | Some cs => Some (le_value bs :: cs)
          | None => None
          end
      | (None, _) => None
      end
  end.

(** [Unspecified] when a component is not read: the loader of the engine
    reads into locals it does not initialise. *)
Definition ByteArrayToTransform (ByteArray : list uint8) : outcome FTransform :=
  match ReadComponents 10 (MemoryReader ByteArray) with
  | Some [qx; qy; qz; qw; tx; ty; tz; sx; sy; sz] =>
      Returned {| Rotation := {| QX := qx; QY := qy; QZ := qz; QW := qw |};
                  Translation := {| VX := tx; VY := ty; VZ := tz |};
                  Scale3D := {| VX := sx; VY := sy; VZ := sz |} |}
  | _ => Unspecified
  end.
End Transform.

(** ** Well-formed values and store files *)

(** Text: code units of 16 bits, none of them NUL or 0xFFFF. *)
Definition valid_text (s : FString) : Prop := Forall (fun c => 0 < c < 65535) s.

(** A byte sequence that an array of the engine can hold during writing. *)
Definition fits (Bytes : list uint8) : Prop := Z.of_nat (length Bytes) < MAX_int32.

(** The records of a store file, serialized back to back. *)
Definition SerializeAll (l : list FSerializedData) : list uint8 :=
  flat_map WriteFSerializedData l.

(** [Bytes] is the store file of the records [l]. *)
Definition StoreFile (Bytes : list uint8) (l : list FSerializedData) : Prop :=
  Bytes = SerializeAll l /\ Forall (fun r => valid_text (Key r)) l /\ fits Bytes.

(** At most one record for each key, keys compared as the manager does. *)
Fixpoint unique_keys (l : list FSerializedData) : bool :=
  match l with
  | [] => true
  | r :: l' =>
      forallb (fun r' => negb (FString_eq (Key r') (Key r))) l' && unique_keys l'
  end.

(** The path is free, or holds the store file of some records. *)
Definition StoreAt (p : FString) (w : World) (l : list FSerializedData) : Prop :=
  match Files w !! p with
  | None => l = []
  | Some Bytes => StoreFile Bytes l
  end.

(** The mutations of the store and a run of them in which every call
    reports success. *)
Inductive Mutation : Type :=
| Upsert (k : FString) (d : list uint8) (t : EDataType)
| Remove (k : FString).

Definition Mutate (m : Mutation) (p : FString) (w : World) : outcome bool * World :=
  match m with
  | Upsert k d t => SaveData k d t p w
  | Remove k => DeleteData k p w
  end.

Fixpoint MutateAll (ms : list Mutation) (p : FString) (w : World) : option World :=
  match ms with
  | [] => Some w
  | m :: ms' =>
      match Mutate m p w with
      | (Returned true, w') => MutateAll ms' p w'
      | _ => None
      end
  end.

Definition MutationKey (m : Mutation) : FString :=
  match m with
  | Upsert k _ _ => k
  | Remove k => k
  end.

(** What the decoding loop of [SaveData] and [DeleteData] makes of the
    bytes of a file. *)
Definition DecodeFile (ByteArray : list uint8) : outcome (list FSerializedData) :=
  ReadExistingData (length ByteArray) (MemoryReader ByteArray) [].

(** A record with valid text for its key whose bytes an array can hold. *)
Definition valid_record (r : FSerializedData) : Prop :=
  valid_text (Key r) /\ fits (WriteFSerializedData r).

(** [NewData] of [SaveData]. *)
Definition NewRecord (k : FString) (d : list uint8) (t : EDataType) : FSerializedData :=
  {| DataType := t; Key := k; Data := d |}.

(** The predicate given to [RemoveAll]: [Entry.Key == Key]. *)
Definition KeyIs (k : FString) (Entry : FSerializedData) : bool :=
  FString_eq (Key Entry) k.

(** The list of records after a mutation. *)
Definition MutateList (m : Mutation) (l : list FSerializedData) : list FSerializedData :=
  match m with
  | Upsert k d t => RemoveAll (KeyIs k) l ++ [NewRecord k d t]
  | Remove k => RemoveAll (KeyIs k) l
  end.

(** The world after [SaveArrayToFile] has replaced the file at [p]. *)
Definition AfterWrite (p : FString) (Bytes : list uint8) (w : World) : World :=
  {| Files := <[p := Bytes]> (Files w);
     ReadDenied := ReadDenied w; WriteDenied := WriteDenied w;
     WriteJournal := WriteJournal w ++ [(p, Bytes)];
     LogTemp := LogTemp w |}.

(** The predicates on values can be decided. *)
#[global] Instance valid_text_dec (s : FString) : Decision (valid_text s).
Proof. unfold valid_text. apply _. Defined.

#[global] Instance fits_dec (Bytes : list uint8) : Decision (fits Bytes).
Proof. unfold fits. apply _. Defined.

(** Components that are bit patterns of [FReal] bytes. *)
Definition real_components (FReal : nat) (T : FTransform) : Prop :=
  Forall (fun c => 0 <= c < 256 ^ Z.of_nat FReal) (TransformComponents T).

(** ** Values for the examples *)

(** [TEXT("...")]: the code units of an ASCII literal. *)
Definition TEXT (s : string) : FString :=
  map (fun c => Z.of_N (N_of_ascii c)) (list_ascii_of_string s).

Definition Health : FString := TEXT "Health".
Definition Mana : FString := TEXT "Mana".
Definition GameBin : FString := TEXT "saves/game.bin".

Definition HealthRecord : FSerializedData := NewRecord Health [x2a; x00; x00; x00] IntType.
Definition ManaRecord : FSerializedData := NewRecord Mana [x00; x00; x80; x3f] FloatType.

Definition EmptyWorld : World :=
  {| Files := ∅; ReadDenied := ∅; WriteDenied := ∅; WriteJournal := []; LogTemp := [] |}.

(** One file, unreadable when its path is in [denied]. *)
Definition WorldWith (p : FString) (Bytes : list uint8) (denied : gset FString) : World :=
  {| Files := {[ p := Bytes ]}; ReadDenied := denied; WriteDenied := ∅;
     WriteJournal := []; LogTemp := [] |}.

(** The identity transform in single precision: 1.0f is 0x3F800000. *)
Definition IdentityTransform : FTransform :=
  {| Rotation := {| QX := 0; QY := 0; QZ := 0; QW := 1065353216 |};
     Translation := {| VX := 0; VY := 0; VZ := 0 |};
     Scale3D := {| VX := 1065353216; VY := 1065353216; VZ := 1065353216 |} |}.

(** * The other functions of the manager *)

(** ** SaveLoadManager.cpp: paths and whole files *)

(** [enum class ESaveFileFormat : uint8]. *)
Inductive ESaveFileFormat : Type := BIN | SAV | DAT | JSON.

(** [BaseDirectory], the static of [PrepareFilePath]:
    [FPaths::ProjectSavedDir() + "/SavedGames"]. *)
Definition BaseDirectory (ProjectSavedDir : FString) : FString :=
  ProjectSavedDir ++ TEXT "/SavedGames".

(** [PrepareFilePath] returns the path; beside it stands the directory it
    asks [IFileManager::MakeDirectory] to make, which is the base directory
    when [FPaths::DirectoryExists] denies it.  The switch has no case for
    [JSON], which takes the default branch. *)
Definition PrepareFilePath (ProjectSavedDir : FString)
    (DirectoryExists : FString -> bool)
    (FileName : FString) (SaveFileFormat : ESaveFileFormat)
  : FString * list FString :=
  let MakeDirectory :=
    if DirectoryExists (BaseDirectory ProjectSavedDir) then []
    else [BaseDirectory ProjectSavedDir] in
  let FileExtension :=
    match SaveFileFormat with
    | BIN => TEXT ".bin"
    | SAV => TEXT ".sav"
    | DAT => TEXT ".dat"
    | _ => TEXT ".bin"
    end in
  (BaseDirectory ProjectSavedDir ++ TEXT "/" ++ FileName ++ FileExtension,
   MakeDirectory).

Definition DoesFileExist (FilePath : FString) (w : World) : bool :=
  FileExists FilePath w.

(** [DeleteFile].  [bSuccess] is what [IPlatformFile::DeleteFile] answers
    when it is called; the file is gone when the answer is true. *)
Definition DeleteFile (bSuccess : bool) (FileName : FString) (w : World) : World :=
  if FileExists FileName w then
    if bSuccess then
      {| Files := delete FileName (Files w);
         ReadDenied := ReadDenied w; WriteDenied := WriteDenied w;
         WriteJournal := WriteJournal w; LogTemp := LogTemp w |}
    else UE_LOG Error "Failed to delete file: %s" FileName w
  else UE_LOG Log "File does not exist: %s" FileName w.

Definition DefaultSaveFileName : FString := TEXT "GameSave".

Definition GetDefaultSaveFileName : FString := DefaultSaveFileName.

(** ** The store as a dictionary *)

(** What a run of mutations leaves under the key [k], given what was under
    it before: the data and the type of the last upsert of a key equal to
    [k], unless a removal of such a key came after it. *)
Fixpoint LastWrite (k : FString) (ms : list Mutation)
    (before : option (list uint8 * EDataType)) : option (list uint8 * EDataType) :=
  match ms with
  | [] => before
  | Upsert k' d t :: ms' =>
      LastWrite k ms' (if FString_eq k' k then Some (d, t) else before)
  | Remove k' :: ms' =>
      LastWrite k ms' (if FString_eq k' k then None else before)
  end.

(** The result of a lookup that finds [found]. *)
Definition LookupResult (found : option (list uint8 * EDataType))
    (OutData : list uint8) (OutDataType : EDataType)
  : outcome (bool * list uint8 * EDataType) :=
  match found with
  | Some (d, t) => Returned (true, d, t)
  | None => Returned (false, OutData, OutDataType)
  end.

Definition Stored (r : FSerializedData) : list uint8 * EDataType :=
  (Data r, DataType r).

(** A store of two records, and a second payload for [Health]. *)
Definition TwoRecords : World :=
  WorldWith GameBin (SerializeAll [HealthRecord; ManaRecord]) ∅.

Definition FullHealth : FSerializedData := NewRecord Health [x64; x00; x00; x00] IntType.

(** * Facts about the archive *)

Section ArchiveFacts.

Lemma uint8_to_Z_range (b : uint8) : 0 <= uint8_to_Z b < 256.
Proof.
  unfold uint8_to_Z. pose proof (Byte.to_N_bounded b). lia.
Qed.

Lemma uint8_to_of_Z (z : Z) : uint8_to_Z (uint8_of_Z z) = z mod 256.
Proof.
  unfold uint8_to_Z, uint8_of_Z.
  assert (Hr : 0 <= z mod 256 < 256) by (apply Z.mod_pos_bound; lia).
  destruct (Byte.of_N (Z.to_N (z mod 256))) as [b|] eqn:E.
  - apply Byte.to_of_N in E. rewrite E. lia.
  - apply Byte.of_N_None_iff in E. lia.
Qed.

Lemma uint8_of_to_Z (b : uint8) : uint8_of_Z (uint8_to_Z b) = b.
Proof.
  unfold uint8_of_Z. pose proof (uint8_to_Z_range b) as Hr.
  rewrite Z.mod_small by lia. unfold uint8_to_Z.
  rewrite N2Z.id, Byte.of_to_N. reflexivity.
Qed.

Lemma length_le_bytes (n : nat) (v : Z) : length (le_bytes n v) = n.
Proof. revert v. induction n as [|n IH]; intros v; simpl; [|rewrite IH]; reflexivity. Qed.

Lemma le_value_range (bs : list uint8) : 0 <= le_value bs < 256 ^ Z.of_nat (length bs).
Proof.
  induction bs as [|b bs IH]; simpl le_value; simpl length.
  - simpl. lia.
  - rewrite Nat2Z.inj_succ, Z.pow_succ_r by lia.
    pose proof (uint8_to_Z_range b). lia.
Qed.

Lemma le_value_le_bytes (n : nat) (v : Z) :
  le_value (le_bytes n v) = v mod 256 ^ Z.of_nat n.
Proof.
  revert v. induction n as [|n IH]; intros v.
  - simpl. rewrite Z.mod_1_r. reflexivity.
  - cbn [le_bytes le_value]. rewrite uint8_to_of_Z, IH.
    rewrite Nat2Z.inj_succ, Z.pow_succ_r by lia.
    rewrite Z.mod_mod by lia.
    rewrite (Z.rem_mul_r v 256 (256 ^ Z.of_nat n)) by lia. reflexivity.
Qed.

Lemma le_bytes_le_value (bs : list uint8) : le_bytes (length bs) (le_value bs) = bs.
Proof.
  induction bs as [|b bs IH]; [reflexivity|].
  cbn [length le_bytes le_value].
  pose proof (uint8_to_Z_range b) as Hb.
  rewrite (Z.mul_comm 256 (le_value bs)).
  rewrite Z.mod_add, Z.div_add by lia.
  rewrite Z.mod_small, Z.div_small by lia. rewrite Z.add_0_l.
  rewrite uint8_of_to_Z, IH. reflexivity.
Qed.

Lemma to_signed_wrap (v : Z) :
  MIN_int32 <= v <= MAX_int32 -> to_signed 32 (v mod 2 ^ 32) = v.
Proof.
  unfold MIN_int32, MAX_int32, to_signed. intros Hv.
  change (2 ^ (32 - 1)) with 2147483648. change (2 ^ 32) with 4294967296.
  destruct (Z.ltb_spec (v mod 4294967296) 2147483648) as [Hlt|Hge].
  - destruct (Z.neg_nonneg_cases v) as [Hneg|Hpos].
    + exfalso. rewrite <- (Z.mod_add v 1) in Hlt by lia.
      rewrite Z.mod_small in Hlt; lia.
    + rewrite Z.mod_small; lia.
  - destruct (Z.neg_nonneg_cases v) as [Hneg|Hpos].
    + rewrite <- (Z.mod_add v 1) by lia. rewrite Z.mod_small; lia.
    + rewrite Z.mod_small in Hge; lia.
Qed.

(** A read of exactly the bytes in front of the reader. *)
Lemma Serialize_app (bs rest : list uint8) :
  bs <> [] ->
  Serialize (length bs) {| Remaining := bs ++ rest; ArIsError := false |}
  = (Some bs, {| Remaining := rest; ArIsError := false |}).
Proof.
  intros Hne. unfold Serialize. cbn [Remaining ArIsError].
  destruct bs as [|b bs]; [congruence|].
  cbn [length Nat.eqb orb].
  rewrite (proj2 (Nat.leb_le _ _)) by (rewrite length_app; simpl; lia).
  change (S (length bs)) with (length (b :: bs)).
  rewrite take_app_length, drop_app_length. reflexivity.
Qed.

Lemma Serialize_short (n : nat) (bs : list uint8) :
  (length bs < n)%nat ->
  Serialize n (MemoryReader bs) = (None, SetError (MemoryReader bs)).
Proof.
  intros Hlt. unfold Serialize, MemoryReader. cbn [Remaining ArIsError].
  destruct n as [|n]; [lia|]. cbn [Nat.eqb orb].
  rewrite (proj2 (Nat.leb_gt _ _)) by lia. reflexivity.
Qed.

Lemma Serialize_le_bytes (n : nat) (v : Z) (rest : list uint8) :
  n <> 0%nat ->
  Serialize n {| Remaining := le_bytes n v ++ rest; ArIsError := false |}
  = (Some (le_bytes n v), {| Remaining := rest; ArIsError := false |}).
Proof.
  intros Hn. rewrite <- (length_le_bytes n v) at 1. apply Serialize_app.
  intros E. apply (f_equal length) in E. rewrite length_le_bytes in E. simpl in E. lia.
Qed.

Lemma ReadLE_app (n : nat) (d v : Z) (rest : list uint8) :
  n <> 0%nat ->
  ReadLE n d {| Remaining := le_bytes n v ++ rest; ArIsError := false |}
  = (v mod 256 ^ Z.of_nat n, {| Remaining := rest; ArIsError := false |}).
Proof.
  intros Hn. unfold ReadLE.
  rewrite <- (length_le_bytes n v) at 1.
  rewrite Serialize_app.
  - rewrite le_value_le_bytes. reflexivity.
  - intros E. apply (f_equal length) in E. rewrite length_le_bytes in E. simpl in E. lia.
Qed.

Lemma ReadInt32_app (d v : Z) (rest : list uint8) :
  MIN_int32 <= v <= MAX_int32 ->
  ReadInt32 d {| Remaining := le_bytes 4 v ++ rest; ArIsError := false |}
  = (v, {| Remaining := rest; ArIsError := false |}).
Proof.
  intros Hv. unfold ReadInt32. rewrite ReadLE_app by lia.
  change (256 ^ Z.of_nat 4) with (2 ^ 32). rewrite to_signed_wrap by exact Hv.
  reflexivity.
Qed.

Lemma ReadUInt8_le_bytes (n : nat) (v : Z) (d : uint8) :
  ReadUInt8 d (MemoryReader (le_bytes (S n) v)) =
  (uint8_of_Z (v mod 256), {| Remaining := le_bytes n (v / 256); ArIsError := false |}).
Proof. reflexivity. Qed.

Lemma ReadComponents_flat_map (FReal : nat) (cs : list Z) (rest : list uint8) :
  FReal <> 0%nat ->
  Forall (fun c => 0 <= c < 256 ^ Z.of_nat FReal) cs ->
  ReadComponents FReal (length cs)
    {| Remaining := flat_map (le_bytes FReal) cs ++ rest; ArIsError := false |}
  = Some cs.
Proof.
  intros Hn Hcs. induction Hcs as [|c cs Hc _ IH]; [reflexivity|].
  cbn [length ReadComponents flat_map]. rewrite <- app_assoc.
  rewrite Serialize_le_bytes by exact Hn.
  rewrite IH, le_value_le_bytes, Z.mod_small by exact Hc. reflexivity.
Qed.

End ArchiveFacts.

(** * Strings and arrays read back what was written *)

Section StringFacts.

Lemma ucs2_units_le_bytes (c : Z) (bs : list uint8) :
  ucs2_units (le_bytes 2 c ++ bs) = c mod 65536 :: ucs2_units bs.
Proof.
  cbn [le_bytes app ucs2_units]. rewrite !uint8_to_of_Z.
  f_equal. rewrite !Z.mod_mod by lia.
  change 65536 with (256 * 256). rewrite (Z.rem_mul_r c 256 256) by lia.
  reflexivity.
Qed.

Lemma ucs2_units_flat_map (s : FString) (bs : list uint8) :
  Forall (fun c => 0 <= c < 65536) s ->
  ucs2_units (flat_map (le_bytes 2) s ++ bs) = s ++ ucs2_units bs.
Proof.
  induction 1 as [|c s Hc _ IH]; [reflexivity|].
  cbn [flat_map]. rewrite <- app_assoc, ucs2_units_le_bytes, IH.
  rewrite Z.mod_small by lia. reflexivity.
Qed.

Lemma length_flat_map_le_bytes (n : nat) (s : FString) :
  length (flat_map (le_bytes n) s) = (length s * n)%nat.
Proof.
  induction s as [|c s IH]; [reflexivity|].
  cbn [flat_map length]. rewrite length_app, length_le_bytes, IH. lia.
Qed.

Lemma TrimAt_id (c : Z) (s : FString) :
  Forall (fun x => x <> c) s -> TrimAt c s = s.
Proof.
  induction 1 as [|x s Hx _ IH]; [reflexivity|].
  cbn [TrimAt]. rewrite (proj2 (Z.eqb_neq _ _)) by exact Hx. rewrite IH. reflexivity.
Qed.

Lemma map_uint8_to_of_Z (s : FString) :
  Forall (fun c => 0 <= c < 256) s -> map uint8_to_Z (map uint8_of_Z s) = s.
Proof.
  induction 1 as [|c s Hc _ IH]; [reflexivity|].
  cbn [map]. rewrite uint8_to_of_Z, IH, Z.mod_small by lia. reflexivity.
Qed.

Lemma length_WriteFString (s : FString) :
  (length s + 4 <= length (WriteFString s))%nat.
Proof.
  unfold WriteFString. destruct s as [|c s]; [simpl; lia|].
  destruct (IsPureAnsi (c :: s)).
  - rewrite !length_app, length_le_bytes, length_map. simpl. lia.
  - rewrite !length_app, length_le_bytes, length_flat_map_le_bytes. simpl. lia.
Qed.

Lemma ReadFString_WriteFString (s : FString) (rest : list uint8) :
  valid_text s ->
  Z.of_nat (length s) < MAX_int32 ->
  ReadFString {| Remaining := WriteFString s ++ rest; ArIsError := false |}
  = Returned (s, {| Remaining := rest; ArIsError := false |}).
Proof.
  intros Hs Hlen. unfold ReadFString, WriteFString.
  destruct s as [|c s]; [rewrite ReadInt32_app by (unfold MIN_int32, MAX_int32; lia); reflexivity|].
  set (A := c :: s) in *.
  assert (HlenA : length A = S (length s)) by reflexivity.
  unfold MAX_int32 in Hlen.
  destruct (IsPureAnsi A) eqn:Hansi.
  - rewrite <- app_assoc, ReadInt32_app by (unfold MIN_int32, MAX_int32; lia).
    rewrite (proj2 (Z.eqb_neq _ _)) by (unfold MIN_int32; lia).
    rewrite (proj2 (Z.ltb_ge _ _)) by lia.
    replace (Z.to_nat (Z.abs (Z.of_nat (length A) + 1))) with (length (map uint8_of_Z A ++ [x00]))
      by (rewrite length_app, length_map; simpl; lia).
    destruct (Nat.eqb_spec (length (map uint8_of_Z A ++ [x00])) 0) as [E|_];
      [rewrite length_app in E; simpl in E; lia|].
    rewrite Serialize_app by (destruct (map uint8_of_Z A); discriminate).
    replace (length (map uint8_of_Z A ++ [x00]) - 1)%nat with (length (map uint8_of_Z A))
      by (rewrite length_app; simpl; lia).
    rewrite take_app_length.
    assert (Hrange : Forall (fun c => 0 < c <= 127) A).
    { unfold IsPureAnsi in Hansi. rewrite forallb_forall in Hansi.
      apply Forall_forall. intros x Hx. split.
      - unfold valid_text in Hs. rewrite Forall_forall in Hs. apply Hs in Hx. lia.
      - apply Z.leb_le, Hansi, list_elem_of_In, Hx. }
    rewrite map_uint8_to_of_Z by (eapply Forall_impl; [exact Hrange|]; simpl; intros; lia).
    replace (forallb (fun c0 => negb (c0 =? 0) && (c0 <=? 127)) A) with true; [reflexivity|].
    symmetry. apply forallb_forall. intros x Hx.
    rewrite Forall_forall in Hrange. apply list_elem_of_In, Hrange in Hx.
    rewrite (proj2 (Z.eqb_neq _ _)), (proj2 (Z.leb_le _ _)) by lia. reflexivity.
  - rewrite <- app_assoc, ReadInt32_app by (unfold MIN_int32, MAX_int32; lia).
    rewrite (proj2 (Z.eqb_neq _ _)) by (unfold MIN_int32; lia).
    rewrite (proj2 (Z.ltb_lt _ _)) by lia.
    replace (Z.to_nat (Z.abs (- (Z.of_nat (length A) + 1))) * 2)%nat
      with (length (flat_map (le_bytes 2) A ++ [x00; x00]))
      by (rewrite length_app, length_flat_map_le_bytes; simpl; lia).
    destruct (Nat.eqb_spec (Z.to_nat (Z.abs (- (Z.of_nat (length A) + 1)))) 0) as [E|_]; [lia|].
    rewrite Serialize_app by (destruct (flat_map (le_bytes 2) A); discriminate).
    assert (Hrange : Forall (fun c => 0 <= c < 65536) A)
      by (eapply Forall_impl; [exact Hs|]; simpl; intros; lia).
    rewrite ucs2_units_flat_map by exact Hrange.
    replace (Z.to_nat (Z.abs (- (Z.of_nat (length A) + 1))) - 1)%nat with (length A) by lia.
    rewrite take_app_length.
    replace (forallb (fun c0 => negb (c0 =? 0)) A) with true.
    + rewrite TrimAt_id; [reflexivity|].
      eapply Forall_impl; [exact Hs|]. simpl. intros; lia.
    + symmetry. apply forallb_forall. intros x Hx.
      unfold valid_text in Hs. rewrite Forall_forall in Hs. apply list_elem_of_In, Hs in Hx.
      rewrite (proj2 (Z.eqb_neq _ _)) by lia. reflexivity.
Qed.

Lemma ReadTArray_WriteTArray (d rest : list uint8) :
  Z.of_nat (length d) <= MAX_int32 ->
  ReadTArray {| Remaining := WriteTArray d ++ rest; ArIsError := false |}
  = Returned (d, {| Remaining := rest; ArIsError := false |}).
Proof.
  intros Hlen. unfold ReadTArray, WriteTArray.
  rewrite <- app_assoc, ReadInt32_app by (unfold MIN_int32; lia).
  destruct d as [|b d]; [reflexivity|].
  rewrite (proj2 (Z.eqb_neq _ _)) by (simpl length; lia).
  rewrite (proj2 (Z.ltb_ge _ _)) by lia.
  rewrite Nat2Z.id, Serialize_app by discriminate. reflexivity.
Qed.

Lemma FString_eq_refl (a : FString) : FString_eq a a = true.
Proof.
  induction a as [|x a IH]; [reflexivity|].
  cbn [FString_eq]. rewrite Z.eqb_refl, IH. reflexivity.
Qed.

Lemma FString_eq_sym (a b : FString) : FString_eq a b = FString_eq b a.
Proof.
  revert b. induction a as [|x a IH]; intros [|y b]; try reflexivity.
  cbn [FString_eq]. rewrite (Z.eqb_sym (ToLower x)), IH. reflexivity.
Qed.

Lemma FString_eq_true_iff (a b : FString) :
  FString_eq a b = true <-> map ToLower a = map ToLower b.
Proof.
  revert b. induction a as [|x a IH]; intros [|y b]; cbn [FString_eq map];
    try (split; [reflexivity | reflexivity]); try (split; discriminate).
  rewrite andb_true_iff, Z.eqb_eq, IH. split.
  - intros [-> ->]. reflexivity.
  - intros [= -> ->]. split; reflexivity.
Qed.

Lemma FString_eq_trans (a b c : FString) :
  FString_eq a b = true -> FString_eq b c = true -> FString_eq a c = true.
Proof. rewrite !FString_eq_true_iff. congruence. Qed.

End StringFacts.

(** * Records and the decoding loop *)

Section RecordFacts.

Lemma length_WriteFSerializedData (r : FSerializedData) :
  (length (Key r) + length (Data r) + 9 <= length (WriteFSerializedData r))%nat.
Proof.
  unfold WriteFSerializedData, WriteTArray.
  rewrite !length_app, length_le_bytes. pose proof (length_WriteFString (Key r)).
  simpl. lia.
Qed.

Lemma ReadFSerializedData_Write (r : FSerializedData) (rest : list uint8) :
  valid_record r ->
  ReadFSerializedData
    {| Remaining := WriteFSerializedData r ++ rest; ArIsError := false |}
  = Returned (r, {| Remaining := rest; ArIsError := false |}).
Proof.
  intros [Hkey Hfit]. unfold fits in Hfit.
  pose proof (length_WriteFSerializedData r) as Hlen.
  unfold ReadFSerializedData, WriteFSerializedData.
  rewrite <- app_assoc.
  change 1%nat with (length [DataType r]) at 1.
  rewrite Serialize_app by discriminate.
  rewrite <- app_assoc, ReadFString_WriteFString by (trivial || lia).
  rewrite ReadTArray_WriteTArray by lia.
  destruct r; reflexivity.
Qed.

Lemma SerializeAll_cons (r : FSerializedData) (l : list FSerializedData) :
  SerializeAll (r :: l) = WriteFSerializedData r ++ SerializeAll l.
Proof. reflexivity. Qed.

Lemma SerializeAll_app (l1 l2 : list FSerializedData) :
  SerializeAll (l1 ++ l2) = SerializeAll l1 ++ SerializeAll l2.
Proof. unfold SerializeAll. apply flat_map_app. Qed.

Lemma SerializeAll_not_single_byte (b : uint8) (l : list FSerializedData) :
  SerializeAll l <> [b].
Proof.
  destruct l as [|r l]; [discriminate|]. intros E. apply (f_equal length) in E.
  rewrite SerializeAll_cons, length_app in E. change (length [b]) with 1%nat in E.
  pose proof (length_WriteFSerializedData r). lia.
Qed.

(** With at least as much fuel as bytes, the loop returns the records. *)
Lemma ReadExistingData_SerializeAll (l acc : list FSerializedData) (fuel : nat) :
  Forall valid_record l ->
  (length (SerializeAll l) <= fuel)%nat ->
  ReadExistingData fuel (MemoryReader (SerializeAll l)) acc = Returned (acc ++ l).
Proof.
  intros Hl. revert acc fuel.
  induction Hl as [|r l Hr _ IH]; intros acc fuel Hfuel.
  - destruct fuel; cbn; rewrite app_nil_r; reflexivity.
  - rewrite SerializeAll_cons in *. rewrite length_app in Hfuel.
    pose proof (length_WriteFSerializedData r) as Hlen.
    destruct fuel as [|fuel]; [lia|].
    unfold MemoryReader. cbn [ReadExistingData].
    replace (AtEnd _) with false by (unfold WriteFSerializedData; reflexivity).
    rewrite ReadFSerializedData_Write by exact Hr.
    change {| Remaining := SerializeAll l; ArIsError := false |}
      with (MemoryReader (SerializeAll l)).
    rewrite IH by lia. rewrite <- app_assoc. reflexivity.
Qed.

Lemma FindData_SerializeAll (k : FString) (l : list FSerializedData) (fuel : nat) :
  Forall valid_record l ->
  (length (SerializeAll l) <= fuel)%nat ->
  FindData fuel k (MemoryReader (SerializeAll l))
  = Returned (List.find (fun r => FString_eq (Key r) k) l).
Proof.
  intros Hl. revert fuel.
  induction Hl as [|r l Hr _ IH]; intros fuel Hfuel.
  - destruct fuel; reflexivity.
  - rewrite SerializeAll_cons in *. rewrite length_app in Hfuel.
    pose proof (length_WriteFSerializedData r) as Hlen.
    destruct fuel as [|fuel]; [lia|].
    unfold MemoryReader. cbn [FindData List.find].
    replace (AtEnd _) with false by (unfold WriteFSerializedData; reflexivity).
    rewrite ReadFSerializedData_Write by exact Hr.
    destruct (FString_eq (Key r) k); [reflexivity|].
    apply IH. lia.
Qed.

Lemma fold_left_Write (l : list FSerializedData) (Bytes : list uint8) :
  fold_left (fun Bytes DataEntry => Bytes ++ WriteFSerializedData DataEntry) l Bytes
  = Bytes ++ SerializeAll l.
Proof.
  revert Bytes. induction l as [|r l IH]; intros Bytes.
  - simpl. rewrite app_nil_r. reflexivity.
  - cbn [fold_left]. rewrite IH, SerializeAll_cons, app_assoc. reflexivity.
Qed.

Lemma WriteExistingData_fits (l : list FSerializedData) :
  fits (SerializeAll l) -> WriteExistingData l = Returned (SerializeAll l).
Proof.
  unfold WriteExistingData, MemoryWriter, fits. rewrite fold_left_Write. simpl.
  intros Hfit. rewrite (proj2 (Z.leb_gt _ _)) by exact Hfit. reflexivity.
Qed.

Lemma WriteExistingData_Returned (l : list FSerializedData) (Bytes : list uint8) :
  WriteExistingData l = Returned Bytes -> Bytes = SerializeAll l /\ fits Bytes.
Proof.
  unfold WriteExistingData, MemoryWriter, fits. rewrite fold_left_Write. simpl.
  destruct (Z.leb_spec MAX_int32 (Z.of_nat (length (SerializeAll l)))); [discriminate|].
  intros [= <-]. split; [reflexivity | assumption].
Qed.

Lemma fits_records (l : list FSerializedData) :
  fits (SerializeAll l) -> Forall (fun r => fits (WriteFSerializedData r)) l.
Proof.
  unfold fits. induction l as [|r l IH]; intros Hfit; constructor.
  - rewrite SerializeAll_cons, length_app in Hfit. lia.
  - apply IH. rewrite SerializeAll_cons, length_app in Hfit. lia.
Qed.

Lemma StoreFile_valid (Bytes : list uint8) (l : list FSerializedData) :
  StoreFile Bytes l -> Forall valid_record l.
Proof.
  intros (-> & Hkeys & Hfit). apply fits_records in Hfit.
  rewrite Forall_forall in *. intros r Hr. split; auto.
Qed.

Lemma StoreFile_decode (Bytes : list uint8) (l : list FSerializedData) :
  StoreFile Bytes l ->
  ReadExistingData (length Bytes) (MemoryReader Bytes) [] = Returned l.
Proof.
  intros HS. pose proof (StoreFile_valid _ _ HS) as Hv. destruct HS as (-> & _ & _).
  rewrite ReadExistingData_SerializeAll by (trivial || lia). reflexivity.
Qed.

Lemma StoreFile_find (k : FString) (Bytes : list uint8) (l : list FSerializedData) :
  StoreFile Bytes l ->
  FindData (length Bytes) k (MemoryReader Bytes)
  = Returned (List.find (fun r => FString_eq (Key r) k) l).
Proof.
  intros HS. pose proof (StoreFile_valid _ _ HS) as Hv. destruct HS as (-> & _ & _).
  apply FindData_SerializeAll; trivial.
Qed.

End RecordFacts.

(** * The loops end *)

Section Progress.

Lemma Serialize_Remaining (Num : nat) (Ar Ar' : FMemoryReader) (o : option (list uint8)) :
  Serialize Num Ar = (o, Ar') ->
  (length (Remaining Ar') <= length (Remaining Ar))%nat
  /\ (forall bs, o = Some bs ->
        (length (Remaining Ar') + Num = length (Remaining Ar))%nat).
Proof.
  unfold Serialize. destruct ((Num =? 0)%nat || ArIsError Ar).
  - intros [= <- <-]. split; [lia | discriminate].
  - destruct (Nat.leb_spec Num (length (Remaining Ar))) as [Hle|Hgt].
    + intros [= <- <-]. cbn [Remaining]. rewrite length_drop. split; intros; lia.
    + intros [= <- <-]. cbn [SetError Remaining]. split; [lia | discriminate].
Qed.

Lemma ReadInt32_Remaining (Value v : Z) (Ar Ar' : FMemoryReader) :
  ReadInt32 Value Ar = (v, Ar') ->
  (length (Remaining Ar') <= length (Remaining Ar))%nat.
Proof.
  unfold ReadInt32, ReadLE. destruct (Serialize 4 Ar) as [[bs|] Ar1] eqn:E;
    intros [= _ <-]; apply (Serialize_Remaining _ _ _ _ E).
Qed.

Lemma ReadFString_Remaining (Ar Ar' : FMemoryReader) (s : FString) :
  ReadFString Ar = Returned (s, Ar') ->
  (length (Remaining Ar') <= length (Remaining Ar))%nat.
Proof.
  unfold ReadFString. destruct (ReadInt32 0 Ar) as [SaveNum Ar1] eqn:E1.
  apply ReadInt32_Remaining in E1.
  destruct (SaveNum =? MIN_int32); [intros [= _ <-]; exact E1|].
  destruct (Z.to_nat (Z.abs SaveNum) =? 0)%nat; [intros [= _ <-]; exact E1|].
  destruct (SaveNum <? 0).
  - destruct (Serialize _ Ar1) as [[bs|] Ar2] eqn:E2;
      apply Serialize_Remaining in E2 as [E2 _].
    + destruct (forallb _ _); [|discriminate]. intros [= _ <-]. lia.
    + destruct (_ =? 1)%nat; [|discriminate]. intros [= _ <-]. lia.
  - destruct (Serialize _ Ar1) as [[bs|] Ar2] eqn:E2;
      apply Serialize_Remaining in E2 as [E2 _].
    + destruct (forallb _ _); [|discriminate]. intros [= _ <-]. lia.
    + destruct (_ =? 1)%nat; [|discriminate]. intros [= _ <-]. lia.
Qed.

Lemma ReadTArray_Remaining (Ar Ar' : FMemoryReader) (d : list uint8) :
  ReadTArray Ar = Returned (d, Ar') ->
  (length (Remaining Ar') <= length (Remaining Ar))%nat.
Proof.
  unfold ReadTArray. destruct (ReadInt32 0 Ar) as [SerializeNum Ar1] eqn:E1.
  apply ReadInt32_Remaining in E1.
  destruct (SerializeNum =? 0); [intros [= _ <-]; exact E1|].
  destruct (SerializeNum <? 0); [discriminate|].
  destruct (Serialize _ Ar1) as [[bs|] Ar2] eqn:E2; [|discriminate].
  apply Serialize_Remaining in E2 as [E2 _]. intros [= _ <-]. lia.
Qed.

(** A record that is read takes at least its tag byte. *)
Lemma ReadFSerializedData_Remaining (Ar Ar' : FMemoryReader) (r : FSerializedData) :
  ReadFSerializedData Ar = Returned (r, Ar') ->
  (length (Remaining Ar') < length (Remaining Ar))%nat.
Proof.
  unfold ReadFSerializedData.
  destruct (Serialize 1 Ar) as [[[|tag bs]|] Ar1] eqn:E1; try discriminate.
  apply Serialize_Remaining in E1 as [_ E1]. specialize (E1 _ eq_refl).
  destruct (ReadFString Ar1) as [[key Ar2]|] eqn:E2; [|discriminate].
  apply ReadFString_Remaining in E2.
  destruct (ReadTArray Ar2) as [[data Ar3]|] eqn:E3; [|discriminate].
  apply ReadTArray_Remaining in E3. intros [= _ <-]. lia.
Qed.

(** The loops never stop for want of fuel: any fuel from the number of
    bytes left on gives the same result. *)
Lemma ReadExistingData_fuel (fuel fuel' : nat) (Ar : FMemoryReader)
    (acc : list FSerializedData) :
  (length (Remaining Ar) <= fuel)%nat -> (length (Remaining Ar) <= fuel')%nat ->
  ReadExistingData fuel Ar acc = ReadExistingData fuel' Ar acc.
Proof.
  revert fuel' Ar acc. induction fuel as [|fuel IH]; intros fuel' Ar acc H1 H2.
  - destruct Ar as [[|b bs] e]; [|simpl in H1; lia]. destruct fuel'; reflexivity.
  - destruct fuel' as [|fuel'].
    + destruct Ar as [[|b bs] e]; [reflexivity | simpl in H2; lia].
    + cbn [ReadExistingData]. destruct (AtEnd Ar); [reflexivity|].
      destruct (ReadFSerializedData Ar) as [[r Ar']|] eqn:E; [|reflexivity].
      apply ReadFSerializedData_Remaining in E. apply IH; lia.
Qed.

Lemma FindData_fuel (fuel fuel' : nat) (k : FString) (Ar : FMemoryReader) :
  (length (Remaining Ar) <= fuel)%nat -> (length (Remaining Ar) <= fuel')%nat ->
  FindData fuel k Ar = FindData fuel' k Ar.
Proof.
  revert fuel' Ar. induction fuel as [|fuel IH]; intros fuel' Ar H1 H2.
  - destruct Ar as [[|b bs] e]; [|simpl in H1; lia]. destruct fuel'; reflexivity.
  - destruct fuel' as [|fuel'].
    + destruct Ar as [[|b bs] e]; [reflexivity | simpl in H2; lia].
    + cbn [FindData]. destruct (AtEnd Ar); [reflexivity|].
      destruct (ReadFSerializedData Ar) as [[r Ar']|] eqn:E; [|reflexivity].
      destruct (FString_eq (Key r) k); [reflexivity|].
      apply ReadFSerializedData_Remaining in E. apply IH; lia.
Qed.

End Progress.

(** * The store operations on store files *)

Section StoreFacts.

Lemma SaveArrayToFile_true (Bytes : list uint8) (p : FString) (w w' : World) :
  SaveArrayToFile Bytes p w = (true, w') ->
  (p ∉ WriteDenied w) /\ w' = AfterWrite p Bytes w.
Proof.
  unfold SaveArrayToFile, AfterWrite. case_bool_decide; [discriminate|].
  intros [= <-]. split; [assumption | reflexivity].
Qed.

Lemma SaveArrayToFile_allowed (Bytes : list uint8) (p : FString) (w : World) :
  p ∉ WriteDenied w -> SaveArrayToFile Bytes p w = (true, AfterWrite p Bytes w).
Proof.
  intros Hp. unfold SaveArrayToFile, AfterWrite.
  rewrite bool_decide_eq_false_2 by exact Hp. reflexivity.
Qed.

Lemma length_SerializeAll_filter (f : FSerializedData -> bool) (l : list FSerializedData) :
  (length (SerializeAll (List.filter f l)) <= length (SerializeAll l))%nat.
Proof.
  induction l as [|r l IH]; [reflexivity|].
  cbn [List.filter]. destruct (f r); rewrite !SerializeAll_cons, ?length_app; lia.
Qed.

Lemma Forall_filter_bool {A} (P : A -> Prop) (f : A -> bool) (l : list A) :
  Forall P l -> Forall P (List.filter f l).
Proof.
  induction 1 as [|x l Hx _ IH]; [constructor|].
  cbn [List.filter]. destruct (f x); [constructor|]; assumption.
Qed.

Lemma StoreFile_RemoveAll (f : FSerializedData -> bool) (l : list FSerializedData) :
  StoreFile (SerializeAll l) l ->
  StoreFile (SerializeAll (RemoveAll f l)) (RemoveAll f l).
Proof.
  intros (_ & Hkeys & Hfit). split; [reflexivity|]. split.
  - apply Forall_filter_bool, Hkeys.
  - unfold fits in *. pose proof (length_SerializeAll_filter (fun x => negb (f x)) l).
    unfold RemoveAll. lia.
Qed.

(** What a call of [SaveData] that reports success has done. *)
Lemma SaveData_success (k : FString) (d : list uint8) (t : EDataType) (p : FString)
    (w w' : World) (l : list FSerializedData) :
  StoreAt p w l -> valid_text k ->
  SaveData k d t p w = (Returned true, w') ->
  let l' := MutateList (Upsert k d t) l in
  w' = AfterWrite p (SerializeAll l') w /\ StoreFile (SerializeAll l') l'.
Proof.
  intros Hstore Hk. unfold SaveData, StoreAt, FileExists, LoadFileToArray in *.
  cbn [MutateList]. fold (NewRecord k d t).
  destruct (Files w !! p) as [Bytes|] eqn:Hfile.
  - destruct (decide (p ∈ ReadDenied w)); [discriminate|].
    rewrite (StoreFile_decode _ _ Hstore).
    change (fun Entry => FString_eq (Key Entry) k) with (KeyIs k).
    destruct (WriteExistingData _) as [Bytes'|] eqn:Hw; [|discriminate].
    apply WriteExistingData_Returned in Hw as [-> Hfit].
    destruct (SaveArrayToFile _ p w) as [b w1] eqn:Hsave. intros [= -> ->].
    apply SaveArrayToFile_true in Hsave as [_ ->].
    split; [reflexivity|]. split; [reflexivity|]. split; [|exact Hfit].
    destruct Hstore as (_ & Hkeys & _).
    apply Forall_app. split; [apply Forall_filter_bool, Hkeys|].
    constructor; [exact Hk | constructor].
  - subst l. cbn [RemoveAll List.filter app].
    destruct (WriteExistingData _) as [Bytes'|] eqn:Hw; [|discriminate].
    apply WriteExistingData_Returned in Hw as [-> Hfit].
    destruct (SaveArrayToFile _ p w) as [b w1] eqn:Hsave. intros [= -> ->].
    apply SaveArrayToFile_true in Hsave as [_ ->].
    split; [reflexivity|]. split; [reflexivity|]. split; [|exact Hfit].
    constructor; [exact Hk | constructor].
Qed.

(** What [DeleteData] does on a store file it can read. *)
Lemma DeleteData_store (k p : FString) (w : World) (Bytes : list uint8)
    (l : list FSerializedData) :
  Files w !! p = Some Bytes -> StoreFile Bytes l -> p ∉ ReadDenied w ->
  DeleteData k p w
  = let '(b, w') := SaveArrayToFile (SerializeAll (MutateList (Remove k) l)) p w in
    (Returned b, w').
Proof.
  intros Hfile Hstore Hread. unfold DeleteData, FileExists, LoadFileToArray.
  rewrite Hfile. destruct (decide (p ∈ ReadDenied w)); [contradiction|].
  rewrite (StoreFile_decode _ _ Hstore).
  change (fun Entry => FString_eq (Key Entry) k) with (KeyIs k).
  destruct Hstore as (-> & Hkeys & Hfit).
  rewrite WriteExistingData_fits; [reflexivity|].
  eapply (StoreFile_RemoveAll (KeyIs k) l); repeat split; assumption.
Qed.

Lemma DeleteData_success (k p : FString) (w w' : World) (l : list FSerializedData) :
  StoreAt p w l ->
  DeleteData k p w = (Returned true, w') ->
  let l' := MutateList (Remove k) l in
  w' = AfterWrite p (SerializeAll l') w /\ StoreFile (SerializeAll l') l'.
Proof.
  intros Hstore Hdel. unfold StoreAt in Hstore.
  destruct (Files w !! p) as [Bytes|] eqn:Hfile.
  - destruct (decide (p ∈ ReadDenied w)) as [Hin|Hnin].
    + unfold DeleteData, FileExists, LoadFileToArray in Hdel. rewrite Hfile in Hdel.
      destruct (decide (p ∈ ReadDenied w)); [discriminate | contradiction].
    + rewrite (DeleteData_store k p w Bytes l Hfile Hstore Hnin) in Hdel.
      destruct (SaveArrayToFile _ p w) as [b w1] eqn:Hsave.
      injection Hdel as -> ->. apply SaveArrayToFile_true in Hsave as [_ ->].
      split; [reflexivity|]. destruct Hstore as (-> & Hkeys & Hfit).
      apply (StoreFile_RemoveAll (KeyIs k) l). repeat split; assumption.
  - unfold DeleteData, FileExists in Hdel. rewrite Hfile in Hdel. discriminate.
Qed.

Lemma StoreAt_AfterWrite (p : FString) (w : World) (l : list FSerializedData) :
  StoreFile (SerializeAll l) l -> StoreAt p (AfterWrite p (SerializeAll l) w) l.
Proof.
  intros HS. unfold StoreAt, AfterWrite. cbn [Files].
  rewrite lookup_insert_eq. exact HS.
Qed.

Lemma Mutate_success (m : Mutation) (p : FString) (w w' : World)
    (l : list FSerializedData) :
  StoreAt p w l -> valid_text (MutationKey m) ->
  Mutate m p w = (Returned true, w') ->
  w' = AfterWrite p (SerializeAll (MutateList m l)) w
  /\ StoreFile (SerializeAll (MutateList m l)) (MutateList m l).
Proof.
  destruct m as [k d t|k]; cbn [Mutate MutationKey]; intros Hstore Hk Hm.
  - exact (SaveData_success k d t p w w' l Hstore Hk Hm).
  - exact (DeleteData_success k p w w' l Hstore Hm).
Qed.

Lemma MutateAll_store (p : FString) (ms : list Mutation) (w w' : World)
    (l0 : list FSerializedData) :
  StoreAt p w l0 ->
  Forall (fun m => valid_text (MutationKey m)) ms ->
  MutateAll ms p w = Some w' ->
  StoreAt p w' (fold_left (fun l m => MutateList m l) ms l0)
  /\ (ms <> [] -> is_Some (Files w' !! p)).
Proof.
  intros Hstore Hms. revert w l0 Hstore.
  induction Hms as [|m ms Hm _ IH]; intros w l0 Hstore Hrun.
  - injection Hrun as <-. split; [exact Hstore | congruence].
  - cbn [MutateAll fold_left] in *.
    destruct (Mutate m p w) as [[[|]|] w1] eqn:Hmut; try discriminate.
    destruct (Mutate_success m p w w1 l0 Hstore Hm Hmut) as [-> HS].
    pose proof (StoreAt_AfterWrite p w _ HS) as Hstore1.
    destruct (IH _ _ Hstore1 Hrun) as [Hfinal Hsome]. split; [exact Hfinal|].
    intros _. destruct ms as [|m' ms].
    + injection Hrun as <-. cbn [AfterWrite Files]. rewrite lookup_insert_eq. eauto.
    + apply Hsome. discriminate.
Qed.

End StoreFacts.

(** * Keys *)

Section KeyFacts.

Lemma filter_KeyIs_RemoveAll (k : FString) (l : list FSerializedData) :
  List.filter (KeyIs k) (RemoveAll (KeyIs k) l) = [].
Proof.
  induction l as [|r l IH]; [reflexivity|].
  unfold RemoveAll in *. cbn [List.filter].
  destruct (KeyIs k r) eqn:E; cbn [negb]; [exact IH|].
  cbn [List.filter]. rewrite E. exact IH.
Qed.

Lemma find_KeyIs_RemoveAll (k : FString) (l : list FSerializedData) :
  List.find (KeyIs k) (RemoveAll (KeyIs k) l) = None.
Proof.
  induction l as [|r l IH]; [reflexivity|].
  unfold RemoveAll in *. cbn [List.filter].
  destruct (KeyIs k r) eqn:E; cbn [negb]; [exact IH|].
  cbn [List.find]. rewrite E. exact IH.
Qed.

Lemma filter_KeyIs_Upsert (k : FString) (d : list uint8) (t : EDataType)
    (l : list FSerializedData) :
  List.filter (KeyIs k) (MutateList (Upsert k d t) l) = [NewRecord k d t].
Proof.
  cbn [MutateList]. rewrite List.filter_app, filter_KeyIs_RemoveAll.
  cbn [List.filter app]. unfold KeyIs at 1. cbn [Key NewRecord].
  rewrite FString_eq_refl. reflexivity.
Qed.

Lemma find_KeyIs_Upsert (k : FString) (d : list uint8) (t : EDataType)
    (l : list FSerializedData) :
  List.find (KeyIs k) (MutateList (Upsert k d t) l) = Some (NewRecord k d t).
Proof.
  cbn [MutateList].
  assert (H : forall l1 : list FSerializedData,
             List.find (KeyIs k) l1 = None ->
             List.find (KeyIs k) (l1 ++ [NewRecord k d t]) = Some (NewRecord k d t)).
  { induction l1 as [|r l1 IH]; cbn [List.find app].
    - intros _. unfold KeyIs. cbn [Key NewRecord]. rewrite FString_eq_refl. reflexivity.
    - destruct (KeyIs k r); [discriminate | exact IH]. }
  apply H, find_KeyIs_RemoveAll.
Qed.

Lemma find_KeyIs_RemoveAll_other (a b : FString) (l : list FSerializedData) :
  FString_eq a b = false ->
  List.find (KeyIs b) (RemoveAll (KeyIs a) l) = List.find (KeyIs b) l.
Proof.
  intros Hab. induction l as [|r l IH]; [reflexivity|].
  unfold RemoveAll in *. cbn [List.filter List.find].
  destruct (KeyIs a r) eqn:Ea; cbn [negb].
  - destruct (KeyIs b r) eqn:Eb; [|exact IH]. exfalso.
    unfold KeyIs in Ea, Eb. rewrite FString_eq_sym in Ea.
    rewrite (FString_eq_trans _ _ _ Ea Eb) in Hab. discriminate.
  - cbn [List.find]. destruct (KeyIs b r); [reflexivity | exact IH].
Qed.

Lemma RemoveAll_absent (k : FString) (l : list FSerializedData) :
  List.filter (KeyIs k) l = [] -> RemoveAll (KeyIs k) l = l.
Proof.
  induction l as [|r l IH]; [reflexivity|].
  unfold RemoveAll in *. cbn [List.filter].
  destruct (KeyIs k r); [discriminate|]. cbn [negb]. intros H. rewrite (IH H). reflexivity.
Qed.

Lemma unique_keys_filter (f : FSerializedData -> bool) (l : list FSerializedData) :
  unique_keys l = true -> unique_keys (List.filter f l) = true.
Proof.
  induction l as [|r l IH]; [reflexivity|].
  cbn [unique_keys List.filter]. intros [Hr Hl]%andb_true_iff.
  destruct (f r); [|exact (IH Hl)].
  cbn [unique_keys]. rewrite (IH Hl), andb_true_r.
  rewrite forallb_forall in *. intros x Hx. apply Hr.
  apply List.filter_In in Hx. tauto.
Qed.

Lemma unique_keys_snoc (r : FSerializedData) (l : list FSerializedData) :
  unique_keys l = true ->
  List.filter (KeyIs (Key r)) l = [] ->
  unique_keys (l ++ [r]) = true.
Proof.
  induction l as [|x l IH]; [reflexivity|].
  cbn [unique_keys List.filter app]. intros [Hx Hl]%andb_true_iff.
  destruct (KeyIs (Key r) x) eqn:E; [discriminate|]. intros Hnone.
  rewrite (IH Hl Hnone), andb_true_r.
  rewrite forallb_app, Hx. cbn [forallb]. unfold KeyIs in E.
  rewrite FString_eq_sym, E. reflexivity.
Qed.

Lemma unique_keys_MutateList (m : Mutation) (l : list FSerializedData) :
  unique_keys l = true -> unique_keys (MutateList m l) = true.
Proof.
  intros Hl. destruct m as [k d t|k]; cbn [MutateList].
  - apply unique_keys_snoc; [apply unique_keys_filter, Hl|].
    apply filter_KeyIs_RemoveAll.
  - apply unique_keys_filter, Hl.
Qed.

Lemma fold_left_unique_keys (ms : list Mutation) (l0 : list FSerializedData) :
  unique_keys l0 = true ->
  unique_keys (fold_left (fun l m => MutateList m l) ms l0) = true.
Proof.
  revert l0. induction ms as [|m ms IH]; intros l0 Hl0; [exact Hl0|].
  cbn [fold_left]. apply IH, unique_keys_MutateList, Hl0.
Qed.

End KeyFacts.

(** Closed goals about the example values. *)
Ltac solve_text :=
  unfold valid_text, Health, Mana, GameBin, TEXT; cbn;
  repeat (constructor; [lia|]); constructor.

Ltac solve_StoreFile :=
  split; [reflexivity|];
  split; [repeat (constructor; [solve_text|]); constructor
         | unfold fits; vm_compute; reflexivity].

(** * The claims *)

(** C1. No duplication.  Start from a path that is free or holds a store
    file, and run any non-empty sequence of mutations ([SaveData] and
    [DeleteData] calls) that all report success.  Then the file decodes to a
    list of records; when the sequence ends with [SaveData k d1 t1] followed
    by [SaveData k d2 t2], exactly one of its records has the key [k], and it
    is [(k, d2, t2)]; and when the file had at most one record for each key
    before (in particular when the path was free), it has so afterwards. *)
Theorem SaveData_no_duplication (p : FString) (w w' : World)
    (l0 : list FSerializedData) (ms : list Mutation) :
  StoreAt p w l0 ->
  Forall (fun m => valid_text (MutationKey m)) ms ->
  ms <> [] ->
  MutateAll ms p w = Some w' ->
  exists Bytes l,
    Files w' !! p = Some Bytes
    /\ DecodeFile Bytes = Returned l
    /\ (forall ms0 k d1 t1 d2 t2,
          ms = ms0 ++ [Upsert k d1 t1; Upsert k d2 t2] ->
          List.filter (KeyIs k) l = [NewRecord k d2 t2])
    /\ (unique_keys l0 = true -> unique_keys l = true).
Proof.
  intros Hstore Hms Hne Hrun.
  destruct (MutateAll_store p ms w w' l0 Hstore Hms Hrun) as [Hfinal Hsome].
  destruct (Hsome Hne) as [Bytes Hfile].
  unfold StoreAt in Hfinal. rewrite Hfile in Hfinal.
  exists Bytes, (fold_left (fun l m => MutateList m l) ms l0).
  split; [exact Hfile|]. split; [exact (StoreFile_decode _ _ Hfinal)|]. split.
  - intros ms0 k d1 t1 d2 t2 ->. rewrite fold_left_app. cbn [fold_left].
    apply filter_KeyIs_Upsert.
  - apply fold_left_unique_keys.
Qed.

Lemma SaveData_no_duplication_witness :
  let ms := [Upsert Health [x2a; x00; x00; x00] IntType; Upsert Health [x01] EnumType] in
  let w' := AfterWrite GameBin (SerializeAll [NewRecord Health [x01] EnumType])
              (AfterWrite GameBin (SerializeAll [HealthRecord]) EmptyWorld) in
  MutateAll ms GameBin EmptyWorld = Some w'
  /\ exists Bytes l,
       Files w' !! GameBin = Some Bytes
       /\ DecodeFile Bytes = Returned l
       /\ List.filter (KeyIs Health) l = [NewRecord Health [x01] EnumType]
       /\ unique_keys l = true.
Proof.
  intros ms w'.
  assert (Hrun : MutateAll ms GameBin EmptyWorld = Some w') by (vm_compute; reflexivity).
  split; [exact Hrun|].
  destruct (SaveData_no_duplication GameBin EmptyWorld w' [] ms)
    as (Bytes & l & Hfile & Hdecode & Hone & Hunique).
  - vm_compute. reflexivity.
  - repeat (constructor; [solve_text|]). constructor.
  - discriminate.
  - exact Hrun.
  - exists Bytes, l. split; [exact Hfile|]. split; [exact Hdecode|]. split.
    + exact (Hone [] Health [x2a; x00; x00; x00] IntType [x01] EnumType eq_refl).
    + exact (Hunique eq_refl).
Defined.

(** C2. Upsert then lookup.  After a [SaveData k d t p] that reports
    success, on a path that was free or held a store file and can be read,
    [LoadData k] returns true with [OutData = d] and [OutDataType = t]. *)
Theorem SaveData_then_LoadData (k : FString) (d : list uint8) (t : EDataType) (p : FString)
    (w w1 : World) (l : list FSerializedData) (OutData : list uint8) (OutDataType : EDataType) :
  StoreAt p w l -> valid_text k -> p ∉ ReadDenied w ->
  SaveData k d t p w = (Returned true, w1) ->
  LoadData k OutData OutDataType p w1 = (Returned (true, d, t), w1).
Proof.
  intros Hstore Hk Hread Hsave.
  destruct (SaveData_success k d t p w w1 l Hstore Hk Hsave) as [-> HS].
  unfold LoadData, FileExists, LoadFileToArray. cbn [AfterWrite Files ReadDenied].
  rewrite lookup_insert_eq. destruct (decide (p ∈ ReadDenied w)); [contradiction|].
  rewrite (StoreFile_find k _ _ HS).
  change (fun r => FString_eq (Key r) k) with (KeyIs k).
  rewrite find_KeyIs_Upsert. reflexivity.
Qed.

Lemma SaveData_then_LoadData_witness :
  let w1 := AfterWrite GameBin
              (SerializeAll [NewRecord Health [x2a; x00; x00; x00] IntType]) EmptyWorld in
  LoadData Health [] FloatType GameBin w1
  = (Returned (true, [x2a; x00; x00; x00], IntType), w1).
Proof.
  intros w1.
  apply (SaveData_then_LoadData Health [x2a; x00; x00; x00] IntType GameBin EmptyWorld w1 []).
  - vm_compute. reflexivity.
  - solve_text.
  - cbn. set_solver.
  - vm_compute. reflexivity.
Defined.

(** C3, as the code has it.  On an existing file [SaveData] returns false
    without a write when the file cannot be read.  It has no result for a
    decoding failure: whenever it returns on a readable file, the decoding
    loop has ended with a list of records, the list without the records of
    key [k] and with the new record at its end has been handed to
    [SaveArrayToFile], and the result is the one of that write. *)
Theorem SaveData_existing_file (k : FString) (d : list uint8) (t : EDataType)
    (p : FString) (w : World) (Bytes : list uint8) :
  Files w !! p = Some Bytes ->
  (p ∈ ReadDenied w -> SaveData k d t p w = (Returned false, w))
  /\ (forall b w',
        p ∉ ReadDenied w -> SaveData k d t p w = (Returned b, w') ->
        exists l,
          DecodeFile Bytes = Returned l
          /\ SaveArrayToFile
               (SerializeAll (List.filter (fun r => negb (FString_eq (Key r) k)) l
                              ++ [{| DataType := t; Key := k; Data := d |}])) p w
             = (b, w')).
Proof.
  intros Hfile. unfold DecodeFile, SaveData, FileExists, LoadFileToArray.
  rewrite Hfile. split.
  - intros Hin. destruct (decide (p ∈ ReadDenied w)); [reflexivity | contradiction].
  - intros b w' Hnin. destruct (decide (p ∈ ReadDenied w)); [contradiction|].
    destruct (ReadExistingData _ _ _) as [l|]; [|discriminate].
    destruct (WriteExistingData _) as [Bytes'|] eqn:Hw; [|discriminate].
    apply WriteExistingData_Returned in Hw as [-> _].
    destruct (SaveArrayToFile _ p w) as [bSaved w1] eqn:Hsave.
    intros [= <- <-]. exists l. split; [reflexivity | exact Hsave].
Qed.

Lemma SaveData_existing_file_witness :
  let unreadable :=
    WorldWith GameBin (SerializeAll [HealthRecord; ManaRecord]) {[ GameBin ]} in
  SaveData Health [x64; x00; x00; x00] IntType GameBin unreadable
  = (Returned false, unreadable)
  /\ exists l,
       DecodeFile (SerializeAll [HealthRecord; ManaRecord]) = Returned l
       /\ SaveArrayToFile
            (SerializeAll (List.filter (fun r => negb (FString_eq (Key r) Health)) l
                           ++ [FullHealth])) GameBin TwoRecords
          = (true, AfterWrite GameBin (SerializeAll [ManaRecord; FullHealth]) TwoRecords).
Proof.
  intros unreadable. split.
  - assert (Hfile : Files unreadable !! GameBin
                    = Some (SerializeAll [HealthRecord; ManaRecord]))
      by (vm_compute; reflexivity).
    apply (proj1 (SaveData_existing_file Health [x64; x00; x00; x00] IntType GameBin
                    unreadable (SerializeAll [HealthRecord; ManaRecord]) Hfile)).
    cbn. set_solver.
  - assert (Hfile : Files TwoRecords !! GameBin
                    = Some (SerializeAll [HealthRecord; ManaRecord]))
      by (vm_compute; reflexivity).
    apply (proj2 (SaveData_existing_file Health [x64; x00; x00; x00] IntType GameBin
                    TwoRecords (SerializeAll [HealthRecord; ManaRecord]) Hfile)).
    + cbn. set_solver.
    + vm_compute. reflexivity.
Defined.

(** C3 fails as stated: a file that holds the single byte of a type tag is
    no sequence of records, yet [SaveData] returns true and rewrites the file
    with a record of empty key and empty data in front of the new one. *)
Lemma SaveData_rewrites_truncated_store :
  let w := WorldWith GameBin [x02] ∅ in
  (forall l, SerializeAll l <> [x02])
  /\ SaveData Health [x2a; x00; x00; x00] IntType GameBin w
     = (Returned true,
        AfterWrite GameBin
          (SerializeAll [ {| DataType := IntType; Key := []; Data := [] |}; HealthRecord ])
          w).
Proof.
  split; [apply SerializeAll_not_single_byte|]. vm_compute. reflexivity.
Qed.

(** C4, as the code has it.  [LoadData] returns false and leaves the output
    parameters as they were when the file is missing, when the file cannot
    be read, and when no record of a store file has the key; the three are
    told apart by the log alone: a warning, an error, and no line. *)
Theorem LoadData_failures (k : FString) (OutData : list uint8) (OutDataType : EDataType)
    (p : FString) (w : World) :
  (Files w !! p = None ->
   LoadData k OutData OutDataType p w
   = (Returned (false, OutData, OutDataType),
      {| Files := Files w; ReadDenied := ReadDenied w; WriteDenied := WriteDenied w;
         WriteJournal := WriteJournal w;
         LogTemp := LogTemp w ++ [{| Verbosity := Warning;
                                     Format := "File not found: %s";
                                     Argument := p |}] |}))
  /\ (is_Some (Files w !! p) -> p ∈ ReadDenied w ->
      LoadData k OutData OutDataType p w
      = (Returned (false, OutData, OutDataType),
         {| Files := Files w; ReadDenied := ReadDenied w; WriteDenied := WriteDenied w;
            WriteJournal := WriteJournal w;
            LogTemp := LogTemp w ++ [{| Verbosity := Error;
                                        Format := "Failed to load file: %s";
                                        Argument := p |}] |}))
  /\ (forall Bytes l,
        Files w !! p = Some Bytes -> StoreFile Bytes l -> p ∉ ReadDenied w ->
        List.find (KeyIs k) l = None ->
        LoadData k OutData OutDataType p w = (Returned (false, OutData, OutDataType), w)).
Proof.
  unfold LoadData, FileExists, LoadFileToArray. repeat split.
  - intros ->. reflexivity.
  - intros [Bytes ->] Hin. destruct (decide (p ∈ ReadDenied w)); [reflexivity | contradiction].
  - intros Bytes l -> Hstore Hnin Hfind.
    destruct (decide (p ∈ ReadDenied w)); [contradiction|].
    rewrite (StoreFile_find k _ _ Hstore).
    change (fun r => FString_eq (Key r) k) with (KeyIs k). rewrite Hfind. reflexivity.
Qed.

Lemma LoadData_failures_witness :
  let unreadable := WorldWith GameBin (SerializeAll [HealthRecord]) {[ GameBin ]} in
  let readable := WorldWith GameBin (SerializeAll [HealthRecord]) ∅ in
  (fst (LoadData Mana [] FloatType GameBin EmptyWorld) = Returned (false, [], FloatType)
   /\ LogTemp (snd (LoadData Mana [] FloatType GameBin EmptyWorld))
      = [{| Verbosity := Warning; Format := "File not found: %s"; Argument := GameBin |}])
  /\ (fst (LoadData Mana [] FloatType GameBin unreadable) = Returned (false, [], FloatType)
      /\ LogTemp (snd (LoadData Mana [] FloatType GameBin unreadable))
         = [{| Verbosity := Error; Format := "Failed to load file: %s";
               Argument := GameBin |}])
  /\ LoadData Mana [] FloatType GameBin readable
     = (Returned (false, [], FloatType), readable).
Proof.
  intros unreadable readable. split; [|split].
  - rewrite (proj1 (LoadData_failures Mana [] FloatType GameBin EmptyWorld))
      by (vm_compute; reflexivity).
    split; reflexivity.
  - assert (Hsome : is_Some (Files unreadable !! GameBin))
      by (eexists; vm_compute; reflexivity).
    assert (Hdenied : GameBin ∈ ReadDenied unreadable) by (cbn; set_solver).
    rewrite (proj1 (proj2 (LoadData_failures Mana [] FloatType GameBin unreadable))
               Hsome Hdenied).
    split; reflexivity.
  - apply (proj2 (proj2 (LoadData_failures Mana [] FloatType GameBin readable))
             (SerializeAll [HealthRecord]) [HealthRecord]).
    + vm_compute. reflexivity.
    + solve_StoreFile.
    + cbn. set_solver.
    + vm_compute. reflexivity.
Defined.

(** C4 fails as stated: for a file that exists and cannot be read,
    [LoadData] returns the very result it returns for a readable store file
    without the key. *)
Lemma LoadData_read_failure_as_not_found :
  let unreadable := WorldWith GameBin (SerializeAll [HealthRecord]) {[ GameBin ]} in
  let readable := WorldWith GameBin (SerializeAll [HealthRecord]) ∅ in
  FileExists GameBin unreadable = true
  /\ LoadFileToArray GameBin unreadable = None
  /\ LoadFileToArray GameBin readable = Some (SerializeAll [HealthRecord])
  /\ DecodeFile (SerializeAll [HealthRecord]) = Returned [HealthRecord]
  /\ fst (LoadData Mana [] FloatType GameBin unreadable)
     = fst (LoadData Mana [] FloatType GameBin readable).
Proof. vm_compute. repeat split; reflexivity. Qed.

(** C5. Round trip of the typed codecs: a 32-bit signed integer, a bool,
    valid text whose bytes an array can hold, the bit pattern of a float, a
    [uint8] enumeration value and a transform of [FReal]-byte components are
    decoded to the value that was encoded. *)
Theorem typed_codecs_round_trip (i : Z) (b : bool) (s : FString) (f : Z) (e : uint8)
    (FReal : nat) (T : FTransform) :
  (MIN_int32 <= i <= MAX_int32 -> ByteArrayToInt (IntToByteArray i) = i)
  /\ ByteArrayToBool (BoolToByteArray b) = b
  /\ (valid_text s -> fits (WriteFString s) ->
      exists ByteArray,
        FStringToByteArray s = Returned ByteArray
        /\ ByteArrayToFString ByteArray = Returned s)
  /\ (0 <= f < 2 ^ 32 -> ByteArrayToFloat (FloatToByteArray f) = f)
  /\ ByteArrayToEnum (EnumToByteArray_uint8 e) = e
  /\ ((0 < FReal)%nat -> real_components FReal T ->
      ByteArrayToTransform FReal (TransformToByteArray FReal T) = Returned T).
Proof.
  repeat split.
  - intros Hi. unfold ByteArrayToInt, IntToByteArray, MemoryReader.
    rewrite <- (app_nil_r (le_bytes 4 i)), ReadInt32_app by exact Hi. reflexivity.
  - destruct b; reflexivity.
  - intros Hs Hfit. exists (WriteFString s). split.
    + unfold FStringToByteArray, MemoryWriter. unfold fits in Hfit.
      rewrite (proj2 (Z.leb_gt _ _)) by exact Hfit. reflexivity.
    + unfold ByteArrayToFString, MemoryReader.
      rewrite <- (app_nil_r (WriteFString s)), ReadFString_WriteFString; [reflexivity | exact Hs |].
      unfold fits in Hfit. pose proof (length_WriteFString s). lia.
  - intros Hf. unfold ByteArrayToFloat, FloatToByteArray, MemoryReader.
    rewrite <- (app_nil_r (le_bytes 4 f)), ReadLE_app by lia.
    change (256 ^ Z.of_nat 4) with (2 ^ 32). rewrite Z.mod_small by exact Hf. reflexivity.
  - intros Hpos Hcs. unfold ByteArrayToTransform, TransformToByteArray, MemoryReader.
    rewrite <- (app_nil_r (flat_map _ _)).
    change 10%nat with (length (TransformComponents T)).
    rewrite ReadComponents_flat_map by (trivial || lia).
    destruct T as [[qx qy qz qw] [tx ty tz] [sx sy sz]]. reflexivity.
Qed.

Lemma typed_codecs_round_trip_witness :
  (ByteArrayToInt (IntToByteArray 0) = 0
   /\ ByteArrayToInt (IntToByteArray (-1)) = -1
   /\ ByteArrayToInt (IntToByteArray MIN_int32) = MIN_int32
   /\ ByteArrayToInt (IntToByteArray MAX_int32) = MAX_int32)
  /\ (exists ByteArray, FStringToByteArray [] = Returned ByteArray
                        /\ ByteArrayToFString ByteArray = Returned [])
  /\ (exists ByteArray, FStringToByteArray [233; 116; 233; 8364] = Returned ByteArray
                        /\ ByteArrayToFString ByteArray = Returned [233; 116; 233; 8364])
  /\ ByteArrayToFloat (FloatToByteArray 1065353216) = 1065353216
  /\ ByteArrayToTransform 4 (TransformToByteArray 4 IdentityTransform)
     = Returned IdentityTransform.
Proof.
  split; [split; [|split; [|split]]|split; [|split; [|split]]].
  - apply (proj1 (typed_codecs_round_trip 0 true [] 0 x00 4 IdentityTransform)).
    unfold MIN_int32, MAX_int32. lia.
  - apply (proj1 (typed_codecs_round_trip (-1) true [] 0 x00 4 IdentityTransform)).
    unfold MIN_int32, MAX_int32. lia.
  - apply (proj1 (typed_codecs_round_trip MIN_int32 true [] 0 x00 4 IdentityTransform)).
    unfold MIN_int32, MAX_int32. lia.
  - apply (proj1 (typed_codecs_round_trip MAX_int32 true [] 0 x00 4 IdentityTransform)).
    unfold MIN_int32, MAX_int32. lia.
  - apply (proj1 (proj2 (proj2 (typed_codecs_round_trip 0 true [] 0 x00 4 IdentityTransform)))).
    + constructor.
    + unfold fits, MAX_int32. simpl. lia.
  - apply (proj1 (proj2 (proj2
             (typed_codecs_round_trip 0 true [233; 116; 233; 8364] 0 x00 4 IdentityTransform)))).
    + unfold valid_text. repeat (constructor; [lia|]). constructor.
    + unfold fits, MAX_int32. simpl. lia.
  - apply (proj1 (proj2 (proj2 (proj2
             (typed_codecs_round_trip 0 true [] 1065353216 x00 4 IdentityTransform))))).
    lia.
  - apply (proj2 (proj2 (proj2 (proj2 (proj2
             (typed_codecs_round_trip 0 true [] 0 x00 4 IdentityTransform)))))).
    + lia.
    + unfold real_components, TransformComponents, IdentityTransform. cbn.
      change (256 ^ 4) with 4294967296. repeat (constructor; [lia|]). constructor.
Defined.

(** C6. [ByteArrayToEnum] reads one byte whatever encoder wrote the array:
    of [EnumToByteArray(uint32)] it returns the first byte, the value modulo
    256, which differs from every value from 256 on; likewise for the 16-bit
    and 64-bit encoders. *)
Theorem ByteArrayToEnum_reads_one_byte (v : Z) :
  0 <= v < 2 ^ 32 ->
  ByteArrayToEnum (EnumToByteArray_uint32 v) = uint8_of_Z v
  /\ [ByteArrayToEnum (EnumToByteArray_uint32 v)] = take 1 (EnumToByteArray_uint32 v)
  /\ uint8_to_Z (ByteArrayToEnum (EnumToByteArray_uint32 v)) = v mod 256
  /\ (256 <= v -> uint8_to_Z (ByteArrayToEnum (EnumToByteArray_uint32 v)) <> v)
  /\ ByteArrayToEnum (EnumToByteArray_uint16 v) = uint8_of_Z v
  /\ ByteArrayToEnum (EnumToByteArray_uint64 v) = uint8_of_Z v.
Proof.
  intros Hv.
  assert (E : forall n, ByteArrayToEnum (le_bytes (S n) v) = uint8_of_Z v).
  { intros n. unfold ByteArrayToEnum. rewrite ReadUInt8_le_bytes. cbn [fst].
    unfold uint8_of_Z. rewrite Z.mod_mod by lia. reflexivity. }
  unfold EnumToByteArray_uint32, EnumToByteArray_uint16, EnumToByteArray_uint64.
  rewrite !E. repeat split.
  - cbn [le_bytes take]. unfold uint8_of_Z. rewrite Z.mod_mod by lia. reflexivity.
  - apply uint8_to_of_Z.
  - intros Hbig. rewrite uint8_to_of_Z. pose proof (Z.mod_pos_bound v 256). lia.
Qed.

Lemma ByteArrayToEnum_reads_one_byte_witness :
  ByteArrayToEnum (EnumToByteArray_uint32 258) = x02
  /\ uint8_to_Z (ByteArrayToEnum (EnumToByteArray_uint32 258)) <> 258.
Proof.
  destruct (ByteArrayToEnum_reads_one_byte 258) as (H1 & _ & _ & H4 & _); [lia|].
  split; [rewrite H1; reflexivity | apply H4; lia].
Defined.

(** C7. [DeleteData] returns false, and changes nothing, when no file is
    at the path.  On a store file that can be read and written it returns
    true and replaces the file; the new file decodes to the former records
    without every record whose key equals [k], the others in their order;
    when no record has the key, the bytes written are the bytes the file
    had, and the write and the success stay. *)
Theorem DeleteData_outcomes (k p : FString) (w : World) :
  (Files w !! p = None -> DeleteData k p w = (Returned false, w))
  /\ (forall Bytes l,
        Files w !! p = Some Bytes -> StoreFile Bytes l ->
        p ∉ ReadDenied w -> p ∉ WriteDenied w ->
        exists Bytes',
          DeleteData k p w = (Returned true, AfterWrite p Bytes' w)
          /\ Files (AfterWrite p Bytes' w) !! p = Some Bytes'
          /\ WriteJournal (AfterWrite p Bytes' w) = WriteJournal w ++ [(p, Bytes')]
          /\ DecodeFile Bytes'
             = Returned (List.filter (fun r => negb (FString_eq (Key r) k)) l)
          /\ (List.filter (fun r => FString_eq (Key r) k) l = [] -> Bytes' = Bytes)).
Proof.
  split.
  - intros Hfile. unfold DeleteData, FileExists. rewrite Hfile. reflexivity.
  - intros Bytes l Hfile Hstore Hread Hwrite.
    exists (SerializeAll (RemoveAll (KeyIs k) l)). split; [|split; [|split; [|split]]].
    + rewrite (DeleteData_store k p w Bytes l Hfile Hstore Hread).
      cbn [MutateList]. rewrite SaveArrayToFile_allowed by exact Hwrite. reflexivity.
    + cbn [AfterWrite Files]. apply lookup_insert_eq.
    + reflexivity.
    + destruct Hstore as (-> & Hkeys & Hfit).
      apply (StoreFile_decode _ (RemoveAll (KeyIs k) l)).
      apply StoreFile_RemoveAll. repeat split; assumption.
    + intros Habsent. rewrite RemoveAll_absent by exact Habsent.
      destruct Hstore as [-> _]. reflexivity.
Qed.

Lemma DeleteData_outcomes_witness :
  DeleteData Mana GameBin EmptyWorld = (Returned false, EmptyWorld)
  /\ (exists Bytes',
        DeleteData Health GameBin TwoRecords
        = (Returned true, AfterWrite GameBin Bytes' TwoRecords)
        /\ Files (AfterWrite GameBin Bytes' TwoRecords) !! GameBin = Some Bytes'
        /\ WriteJournal (AfterWrite GameBin Bytes' TwoRecords) = [(GameBin, Bytes')]
        /\ DecodeFile Bytes' = Returned [ManaRecord])
  /\ (exists Bytes',
        DeleteData Mana GameBin (WorldWith GameBin (SerializeAll [HealthRecord]) ∅)
        = (Returned true,
           AfterWrite GameBin Bytes' (WorldWith GameBin (SerializeAll [HealthRecord]) ∅))
        /\ DecodeFile Bytes' = Returned [HealthRecord]
        /\ Bytes' = SerializeAll [HealthRecord]).
Proof.
  split; [|split].
  - apply (proj1 (DeleteData_outcomes Mana GameBin EmptyWorld)). vm_compute. reflexivity.
  - destruct (proj2 (DeleteData_outcomes Health GameBin TwoRecords)
                (SerializeAll [HealthRecord; ManaRecord]) [HealthRecord; ManaRecord])
      as (Bytes' & Hdel & Hfile & Hjournal & Hdecode & _).
    + vm_compute. reflexivity.
    + solve_StoreFile.
    + cbn. set_solver.
    + cbn. set_solver.
    + exists Bytes'. split; [exact Hdel|]. split; [exact Hfile|].
      split; [exact Hjournal | exact Hdecode].
  - destruct (proj2 (DeleteData_outcomes Mana GameBin
                       (WorldWith GameBin (SerializeAll [HealthRecord]) ∅))
                (SerializeAll [HealthRecord]) [HealthRecord])
      as (Bytes' & Hdel & _ & _ & Hdecode & Hsame).
    + vm_compute. reflexivity.
    + solve_StoreFile.
    + cbn. set_solver.
    + cbn. set_solver.
    + exists Bytes'. split; [exact Hdel|]. split; [exact Hdecode | exact (Hsame eq_refl)].
Defined.

(** C8. Removing [a] leaves [b] alone.  For keys [a] and [b] that the
    manager tells apart, after a [DeleteData a] that reports success on a
    store file, [LoadData b] returns what it returned before (the data and
    the type of the record of [b] when there is one), and the file decodes to
    the former records without those of key [a], in their former order. *)
Theorem DeleteData_preserves_others (a b p : FString) (w w' : World)
    (Bytes : list uint8) (l : list FSerializedData) (OutData : list uint8) (OutDataType : EDataType) :
  Files w !! p = Some Bytes -> StoreFile Bytes l ->
  FString_eq a b = false ->
  DeleteData a p w = (Returned true, w') ->
  fst (LoadData b OutData OutDataType p w') = fst (LoadData b OutData OutDataType p w)
  /\ (forall rb, List.find (KeyIs b) l = Some rb ->
        fst (LoadData b OutData OutDataType p w') = Returned (true, Data rb, DataType rb))
  /\ exists Bytes',
       Files w' !! p = Some Bytes'
       /\ DecodeFile Bytes'
          = Returned (List.filter (fun r => negb (KeyIs a r)) l).
Proof.
  intros Hfile Hstore Hab Hdel.
  assert (Hst : StoreAt p w l) by (unfold StoreAt; rewrite Hfile; exact Hstore).
  destruct (DeleteData_success a p w w' l Hst Hdel) as [-> HS]. cbn [MutateList] in HS.
  assert (Hread : p ∉ ReadDenied w).
  { intros Hin. unfold DeleteData, FileExists, LoadFileToArray in Hdel. rewrite Hfile in Hdel.
    destruct (decide (p ∈ ReadDenied w)); [discriminate | contradiction]. }
  assert (Hafter : forall o, fst (LoadData b OutData OutDataType p
                     (AfterWrite p (SerializeAll (MutateList (Remove a) l)) w)) = o
                   <-> fst (LoadData b OutData OutDataType p w) = o).
  { intros o. unfold LoadData, FileExists, LoadFileToArray. cbn [AfterWrite Files ReadDenied MutateList].
    rewrite lookup_insert_eq, Hfile. destruct (decide (p ∈ ReadDenied w)); [contradiction|].
    rewrite (StoreFile_find b _ _ HS), (StoreFile_find b _ _ Hstore).
    change (fun r => FString_eq (Key r) b) with (KeyIs b).
    rewrite find_KeyIs_RemoveAll_other by exact Hab.
    destruct (List.find (KeyIs b) l); reflexivity. }
  split; [apply Hafter; reflexivity|]. split.
  - intros rb Hrb. apply Hafter. unfold LoadData, FileExists, LoadFileToArray.
    rewrite Hfile. destruct (decide (p ∈ ReadDenied w)); [contradiction|].
    rewrite (StoreFile_find b _ _ Hstore).
    change (fun r => FString_eq (Key r) b) with (KeyIs b). rewrite Hrb. reflexivity.
  - exists (SerializeAll (RemoveAll (KeyIs a) l)). cbn [AfterWrite Files MutateList].
    rewrite lookup_insert_eq. split; [reflexivity|].
    exact (StoreFile_decode _ _ HS).
Qed.

Lemma DeleteData_preserves_others_witness :
  let w := WorldWith GameBin (SerializeAll [HealthRecord; ManaRecord]) ∅ in
  let w' := AfterWrite GameBin (SerializeAll [ManaRecord]) w in
  DeleteData Health GameBin w = (Returned true, w')
  /\ fst (LoadData Mana [] IntType GameBin w') = fst (LoadData Mana [] IntType GameBin w)
  /\ fst (LoadData Mana [] IntType GameBin w')
     = Returned (true, [x00; x00; x80; x3f], FloatType)
  /\ exists Bytes',
       Files w' !! GameBin = Some Bytes' /\ DecodeFile Bytes' = Returned [ManaRecord].
Proof.
  intros w w'.
  assert (Hdel : DeleteData Health GameBin w = (Returned true, w'))
    by (vm_compute; reflexivity).
  split; [exact Hdel|].
  destruct (DeleteData_preserves_others Health Mana GameBin w w'
              (SerializeAll [HealthRecord; ManaRecord]) [HealthRecord; ManaRecord]
              [] IntType) as (Hsame & Hfound & Hrest).
  - vm_compute. reflexivity.
  - solve_StoreFile.
  - reflexivity.
  - exact Hdel.
  - split; [exact Hsame|]. split; [exact (Hfound ManaRecord eq_refl) | exact Hrest].
Defined.

(** C9. [LoadData] is read-only: whatever the key, the path and the world,
    the files are the same after the call and no write was made. *)
Theorem LoadData_read_only (k : FString) (OutData : list uint8) (OutDataType : EDataType)
    (p : FString) (w : World) :
  Files (snd (LoadData k OutData OutDataType p w)) = Files w
  /\ WriteJournal (snd (LoadData k OutData OutDataType p w)) = WriteJournal w.
Proof.
  unfold LoadData. destruct (FileExists p w); [|split; reflexivity].
  destruct (LoadFileToArray p w) as [ByteArray|]; [|split; reflexivity].
  destruct (FindData _ k _) as [[r|]|]; split; reflexivity.
Qed.

(** C10. The fixed-width decoders keep their initial value on a buffer
    shorter than the width: [ByteArrayToInt] returns 0, [ByteArrayToFloat]
    the pattern of 0.0, [ByteArrayToBool] false on fewer than four bytes, and
    [ByteArrayToEnum] returns 0 on the empty array. *)
Theorem decoders_keep_default_on_short_buffers (ByteArray : list uint8) :
  ((length ByteArray < 4)%nat ->
   ByteArrayToInt ByteArray = 0
   /\ ByteArrayToFloat ByteArray = 0
   /\ ByteArrayToBool ByteArray = false)
  /\ ((length ByteArray < 1)%nat -> ByteArrayToEnum ByteArray = x00).
Proof.
  split.
  - intros Hlen.
    unfold ByteArrayToInt, ByteArrayToFloat, ByteArrayToBool, ReadInt32, ReadBool, ReadLE.
    rewrite Serialize_short by exact Hlen. repeat split.
  - intros Hlen. unfold ByteArrayToEnum, ReadUInt8.
    rewrite Serialize_short by exact Hlen. reflexivity.
Qed.

Lemma decoders_keep_default_on_short_buffers_witness :
  ByteArrayToInt [] = 0
  /\ ByteArrayToFloat [] = 0
  /\ ByteArrayToBool [] = false
  /\ ByteArrayToEnum [] = x00.
Proof.
  destruct (decoders_keep_default_on_short_buffers []) as [H4 H1].
  assert (Hlen4 : (length (@nil byte) < 4)%nat) by (simpl; lia).
  assert (Hlen1 : (length (@nil byte) < 1)%nat) by (simpl; lia).
  destruct (H4 Hlen4) as (Hi & Hf & Hb).
  split; [exact Hi|]. split; [exact Hf|]. split; [exact Hb | exact (H1 Hlen1)].
Defined.

(** * Further facts about the store *)

Section MoreStoreFacts.

Lemma SaveData_store (k : FString) (d : list uint8) (t : EDataType) (p : FString)
    (w : World) (Bytes : list uint8) (l : list FSerializedData) :
  Files w !! p = Some Bytes -> StoreFile Bytes l -> p ∉ ReadDenied w ->
  fits (SerializeAll (MutateList (Upsert k d t) l)) ->
  SaveData k d t p w
  = let '(b, w') := SaveArrayToFile (SerializeAll (MutateList (Upsert k d t) l)) p w in
    (Returned b, w').
Proof.
  intros Hfile Hstore Hread Hfit. unfold SaveData, FileExists, LoadFileToArray.
  rewrite Hfile. destruct (decide (p ∈ ReadDenied w)); [contradiction|].
  rewrite (StoreFile_decode _ _ Hstore).
  change (fun Entry => FString_eq (Key Entry) k) with (KeyIs k). fold (NewRecord k d t).
  change (RemoveAll (KeyIs k) l ++ [NewRecord k d t]) with (MutateList (Upsert k d t) l).
  rewrite WriteExistingData_fits by exact Hfit. reflexivity.
Qed.

Lemma SaveData_free (k : FString) (d : list uint8) (t : EDataType) (p : FString)
    (w : World) :
  Files w !! p = None ->
  fits (SerializeAll [NewRecord k d t]) ->
  SaveData k d t p w
  = let '(b, w') := SaveArrayToFile (SerializeAll [NewRecord k d t]) p w in
    (Returned b, w').
Proof.
  intros Hfile Hfit. unfold SaveData, FileExists. rewrite Hfile.
  fold (NewRecord k d t). rewrite WriteExistingData_fits by exact Hfit. reflexivity.
Qed.

Lemma LoadData_store (k : FString) (OutData : list uint8) (OutDataType : EDataType)
    (p : FString) (w : World) (Bytes : list uint8) (l : list FSerializedData) :
  Files w !! p = Some Bytes -> StoreFile Bytes l -> p ∉ ReadDenied w ->
  LoadData k OutData OutDataType p w
  = (LookupResult (Stored <$> List.find (KeyIs k) l) OutData OutDataType, w).
Proof.
  intros Hfile Hstore Hread. unfold LoadData, FileExists, LoadFileToArray.
  rewrite Hfile. destruct (decide (p ∈ ReadDenied w)); [contradiction|].
  rewrite (StoreFile_find k _ _ Hstore).
  change (fun r => FString_eq (Key r) k) with (KeyIs k).
  destruct (List.find (KeyIs k) l); reflexivity.
Qed.

Lemma RemoveAll_idem {A} (f : A -> bool) (l : list A) :
  RemoveAll f (RemoveAll f l) = RemoveAll f l.
Proof.
  unfold RemoveAll. induction l as [|x l IH]; [reflexivity|].
  cbn [List.filter]. destruct (f x) eqn:E; cbn [negb]; [exact IH|].
  cbn [List.filter]. rewrite E. cbn [negb]. rewrite IH. reflexivity.
Qed.

Lemma RemoveAll_app {A} (f : A -> bool) (l1 l2 : list A) :
  RemoveAll f (l1 ++ l2) = RemoveAll f l1 ++ RemoveAll f l2.
Proof. unfold RemoveAll. apply List.filter_app. Qed.

Lemma MutateList_Upsert_idem (k : FString) (d : list uint8) (t : EDataType)
    (l : list FSerializedData) :
  MutateList (Upsert k d t) (MutateList (Upsert k d t) l) = MutateList (Upsert k d t) l.
Proof.
  cbn [MutateList]. rewrite RemoveAll_app, RemoveAll_idem.
  unfold RemoveAll at 2. cbn [List.filter]. unfold KeyIs at 2. cbn [Key NewRecord].
  rewrite FString_eq_refl. cbn [negb]. rewrite app_nil_r. reflexivity.
Qed.

Lemma KeyIs_equal_keys (a b : FString) (r : FSerializedData) :
  FString_eq a b = true -> KeyIs a r = KeyIs b r.
Proof.
  intros Hab. unfold KeyIs.
  destruct (FString_eq (Key r) a) eqn:Ea, (FString_eq (Key r) b) eqn:Eb; try reflexivity.
  - rewrite (FString_eq_trans _ _ _ Ea Hab) in Eb. discriminate.
  - rewrite FString_eq_sym in Hab. rewrite (FString_eq_trans _ _ _ Eb Hab) in Ea. discriminate.
Qed.

Lemma find_ext {A} (f g : A -> bool) (l : list A) :
  (forall x, f x = g x) -> List.find f l = List.find g l.
Proof.
  intros H. induction l as [|x l IH]; [reflexivity|].
  cbn [List.find]. rewrite H, IH. reflexivity.
Qed.

Lemma find_app_bool {A} (f : A -> bool) (l1 l2 : list A) :
  List.find f (l1 ++ l2)
  = match List.find f l1 with Some x => Some x | None => List.find f l2 end.
Proof.
  induction l1 as [|x l1 IH]; [reflexivity|].
  cbn [app List.find]. destruct (f x); [reflexivity | exact IH].
Qed.

(** What a mutation leaves under a key. *)
Lemma find_MutateList (k : FString) (m : Mutation) (l : list FSerializedData) :
  Stored <$> List.find (KeyIs k) (MutateList m l)
  = LastWrite k [m] (Stored <$> List.find (KeyIs k) l).
Proof.
  destruct m as [k' d t|k']; cbn [MutateList LastWrite].
  - rewrite find_app_bool. destruct (FString_eq k' k) eqn:E.
    + rewrite (find_ext (KeyIs k) (KeyIs k')), find_KeyIs_RemoveAll
        by (intros r; symmetry; apply KeyIs_equal_keys, E).
      cbn [List.find]. unfold KeyIs. cbn [Key NewRecord]. rewrite E. reflexivity.
    + rewrite find_KeyIs_RemoveAll_other by exact E.
      destruct (List.find (KeyIs k) l); [reflexivity|].
      cbn [List.find]. unfold KeyIs. cbn [Key NewRecord]. rewrite E. reflexivity.
  - destruct (FString_eq k' k) eqn:E.
    + rewrite (find_ext (KeyIs k) (KeyIs k')), find_KeyIs_RemoveAll
        by (intros r; symmetry; apply KeyIs_equal_keys, E). reflexivity.
    + rewrite find_KeyIs_RemoveAll_other by exact E. reflexivity.
Qed.

Lemma find_fold_MutateList (k : FString) (ms : list Mutation) (l : list FSerializedData) :
  Stored <$> List.find (KeyIs k) (fold_left (fun l m => MutateList m l) ms l)
  = LastWrite k ms (Stored <$> List.find (KeyIs k) l).
Proof.
  revert l. induction ms as [|m ms IH]; intros l; [reflexivity|].
  cbn [fold_left]. rewrite IH, find_MutateList. destruct m; reflexivity.
Qed.

Lemma MutateAll_denied (p : FString) (ms : list Mutation) (w w' : World)
    (l0 : list FSerializedData) :
  StoreAt p w l0 ->
  Forall (fun m => valid_text (MutationKey m)) ms ->
  MutateAll ms p w = Some w' ->
  ReadDenied w' = ReadDenied w /\ WriteDenied w' = WriteDenied w
  /\ LogTemp w' = LogTemp w
  /\ (forall q, q <> p -> Files w' !! q = Files w !! q).
Proof.
  intros Hstore Hms. revert w l0 Hstore.
  induction Hms as [|m ms Hm _ IH]; intros w l0 Hstore Hrun.
  - injection Hrun as <-. repeat split; reflexivity.
  - cbn [MutateAll] in Hrun.
    destruct (Mutate m p w) as [[[|]|] w1] eqn:Hmut; try discriminate.
    destruct (Mutate_success m p w w1 l0 Hstore Hm Hmut) as [-> HS].
    destruct (IH _ _ (StoreAt_AfterWrite p w _ HS) Hrun) as (Hr & Hw & Hl & Hf).
    repeat split; try assumption.
    intros q Hq. rewrite (Hf q Hq). cbn [AfterWrite Files].
    apply lookup_insert_ne. congruence.
Qed.

End MoreStoreFacts.

Lemma StoreFile_single (k : FString) (d : list uint8) (t : EDataType) :
  valid_text k -> fits (SerializeAll [NewRecord k d t]) ->
  StoreFile (SerializeAll [NewRecord k d t]) [NewRecord k d t].
Proof.
  intros Hk Hfit. split; [reflexivity|]. split; [|exact Hfit].
  constructor; [exact Hk | constructor].
Qed.

Lemma StoreFile_Upsert (k : FString) (d : list uint8) (t : EDataType)
    (Bytes : list uint8) (l : list FSerializedData) :
  StoreFile Bytes l -> valid_text k ->
  fits (SerializeAll (MutateList (Upsert k d t) l)) ->
  StoreFile (SerializeAll (MutateList (Upsert k d t) l)) (MutateList (Upsert k d t) l).
Proof.
  intros (_ & Hkeys & _) Hk Hfit. split; [reflexivity|]. split; [|exact Hfit].
  cbn [MutateList]. apply Forall_app. split; [apply Forall_filter_bool, Hkeys|].
  constructor; [exact Hk | constructor].
Qed.

Section MoreLoopFacts.

Lemma FindData_Some_key (fuel : nat) (k : FString) (Ar : FMemoryReader)
    (r : FSerializedData) :
  FindData fuel k Ar = Returned (Some r) -> KeyIs k r = true.
Proof.
  revert Ar. induction fuel as [|fuel IH]; intros Ar; cbn [FindData].
  - destruct (AtEnd Ar); discriminate.
  - destruct (AtEnd Ar); [discriminate|].
    destruct (ReadFSerializedData Ar) as [[r' Ar']|]; [|discriminate].
    destruct (FString_eq (Key r') k) eqn:E; [|apply IH].
    intros [= <-]. exact E.
Qed.

(** The search stops at the first record of the key, whatever follows. *)
Lemma FindData_first (k : FString) (l1 : list FSerializedData) (r : FSerializedData)
    (rest : list uint8) (fuel : nat) :
  Forall valid_record l1 -> valid_record r ->
  List.find (KeyIs k) l1 = None -> KeyIs k r = true ->
  (length (SerializeAll (l1 ++ [r]) ++ rest) <= fuel)%nat ->
  FindData fuel k (MemoryReader (SerializeAll (l1 ++ [r]) ++ rest)) = Returned (Some r).
Proof.
  intros Hl1 Hr. revert fuel.
  induction Hl1 as [|x l1 Hx _ IH]; intros fuel Hnone Hkey Hfuel.
  - cbn [app] in *. rewrite SerializeAll_cons, length_app, length_app in Hfuel.
    pose proof (length_WriteFSerializedData r) as Hlen.
    destruct fuel as [|fuel]; [lia|].
    unfold MemoryReader. cbn [FindData]. rewrite SerializeAll_cons, <- !app_assoc.
    replace (AtEnd _) with false by (unfold WriteFSerializedData; reflexivity).
    rewrite ReadFSerializedData_Write by exact Hr.
    unfold KeyIs in Hkey. rewrite Hkey. reflexivity.
  - cbn [app List.find] in *. destruct (KeyIs k x) eqn:Ex; [discriminate|].
    rewrite SerializeAll_cons, !length_app in Hfuel.
    pose proof (length_WriteFSerializedData x) as Hlen.
    destruct fuel as [|fuel]; [lia|].
    unfold MemoryReader. cbn [FindData]. rewrite SerializeAll_cons, <- !app_assoc.
    replace (AtEnd _) with false by (unfold WriteFSerializedData; reflexivity).
    rewrite ReadFSerializedData_Write by exact Hx.
    unfold KeyIs in Ex. rewrite Ex.
    apply (IH fuel Hnone Hkey). rewrite length_app. lia.
Qed.

(** The decoding loop takes the records in front and goes on with the rest. *)
Lemma ReadExistingData_app (l acc : list FSerializedData) (rest : list uint8)
    (fuel : nat) :
  Forall valid_record l ->
  (length (SerializeAll l ++ rest) <= fuel)%nat ->
  ReadExistingData fuel (MemoryReader (SerializeAll l ++ rest)) acc
  = ReadExistingData fuel (MemoryReader rest) (acc ++ l).
Proof.
  intros Hl. revert acc fuel.
  induction Hl as [|r l Hr _ IH]; intros acc fuel Hfuel.
  - cbn [SerializeAll flat_map app]. rewrite app_nil_r. reflexivity.
  - rewrite SerializeAll_cons, !length_app in Hfuel.
    pose proof (length_WriteFSerializedData r) as Hlen.
    destruct fuel as [|fuel]; [lia|].
    transitivity (ReadExistingData fuel (MemoryReader rest) (acc ++ r :: l));
      [|apply ReadExistingData_fuel; unfold MemoryReader; cbn [Remaining]; lia].
    rewrite SerializeAll_cons, <- app_assoc.
    unfold MemoryReader at 1. cbn [ReadExistingData].
    replace (AtEnd _) with false by (unfold WriteFSerializedData; reflexivity).
    rewrite ReadFSerializedData_Write by exact Hr.
    change {| Remaining := SerializeAll l ++ rest; ArIsError := false |}
      with (MemoryReader (SerializeAll l ++ rest)).
    rewrite IH by (rewrite length_app; lia). rewrite <- app_assoc. reflexivity.
Qed.

Lemma ReadExistingData_AtEnd (fuel : nat) (e : bool) (acc : list FSerializedData) :
  ReadExistingData fuel {| Remaining := []; ArIsError := e |} acc = Returned acc.
Proof. destruct fuel; reflexivity. Qed.

(** A tag byte at the end of the array is read as a record of its own: the
    reads of the key and of the data find nothing and leave both empty. *)
Lemma ReadExistingData_lone_tag (fuel : nat) (tag : EDataType)
    (acc : list FSerializedData) :
  ReadExistingData (S fuel) (MemoryReader [tag]) acc
  = Returned (acc ++ [{| DataType := tag; Key := []; Data := [] |}]).
Proof.
  cbn [ReadExistingData].
  change (AtEnd (MemoryReader [tag])) with false. cbv iota.
  change (ReadFSerializedData (MemoryReader [tag]))
    with (Returned ({| DataType := tag; Key := []; Data := [] |},
                    {| Remaining := []; ArIsError := true |})).
  apply ReadExistingData_AtEnd.
Qed.

(** The same for a tag and a key: the read of the data finds nothing. *)
Lemma ReadExistingData_tag_key (fuel : nat) (tag : EDataType) (k : FString)
    (acc : list FSerializedData) :
  valid_text k -> Z.of_nat (length k) < MAX_int32 ->
  ReadExistingData (S fuel) (MemoryReader ([tag] ++ WriteFString k)) acc
  = Returned (acc ++ [{| DataType := tag; Key := k; Data := [] |}]).
Proof.
  intros Hk Hlen. cbn [ReadExistingData app].
  change (AtEnd (MemoryReader (tag :: WriteFString k))) with false. cbv iota.
  assert (E : ReadFSerializedData (MemoryReader (tag :: WriteFString k))
              = Returned ({| DataType := tag; Key := k; Data := [] |},
                          {| Remaining := []; ArIsError := true |})).
  { unfold ReadFSerializedData.
    change (Serialize 1 (MemoryReader (tag :: WriteFString k)))
      with (Some [tag], {| Remaining := WriteFString k; ArIsError := false |}).
    rewrite <- (app_nil_r (WriteFString k)).
    rewrite ReadFString_WriteFString by assumption. reflexivity. }
  rewrite E. apply ReadExistingData_AtEnd.
Qed.

Lemma Serialize_take (n : nat) (bs : list uint8) :
  fst (Serialize n (MemoryReader (take n bs))) = fst (Serialize n (MemoryReader bs)).
Proof.
  unfold Serialize, MemoryReader. cbn [Remaining ArIsError].
  destruct (n =? 0)%nat eqn:E0; cbn [orb]; [reflexivity|].
  destruct (Nat.leb_spec n (length bs)) as [Hle|Hgt].
  - rewrite length_take, Nat.min_l by exact Hle. rewrite Nat.leb_refl.
    cbn [fst]. rewrite take_take, Nat.min_id. reflexivity.
  - rewrite take_ge by lia. rewrite (proj2 (Nat.leb_gt _ _)) by lia. reflexivity.
Qed.

End MoreLoopFacts.

Ltac solve_fits := unfold fits; vm_compute; reflexivity.

Ltac solve_valid_record := split; [solve_text | solve_fits].

Ltac solve_not_in := cbn; set_solver.

(** * Further properties *)

(** X1. On a free path that can be written, [SaveData] with a key of valid
    text returns true and makes a file that is the new record alone; the file
    decodes to that one record. *)
Theorem SaveData_creates_store (k : FString) (d : list uint8) (t : EDataType)
    (p : FString) (w : World) :
  Files w !! p = None -> p ∉ WriteDenied w ->
  valid_text k -> fits (SerializeAll [NewRecord k d t]) ->
  SaveData k d t p w
  = (Returned true, AfterWrite p (SerializeAll [NewRecord k d t]) w)
  /\ DecodeFile (SerializeAll [NewRecord k d t]) = Returned [NewRecord k d t].
Proof.
  intros Hfile Hwrite Hk Hfit. split.
  - rewrite (SaveData_free k d t p w Hfile Hfit).
    rewrite SaveArrayToFile_allowed by exact Hwrite. reflexivity.
  - exact (StoreFile_decode _ _ (StoreFile_single k d t Hk Hfit)).
Qed.

Lemma SaveData_creates_store_witness :
  SaveData Health [x2a; x00; x00; x00] IntType GameBin EmptyWorld
  = (Returned true, AfterWrite GameBin (SerializeAll [HealthRecord]) EmptyWorld)
  /\ DecodeFile (SerializeAll [HealthRecord]) = Returned [HealthRecord].
Proof.
  apply (SaveData_creates_store Health [x2a; x00; x00; x00] IntType GameBin EmptyWorld).
  - vm_compute. reflexivity.
  - solve_not_in.
  - solve_text.
  - solve_fits.
Defined.

(** X2. On a store file that can be read and written, [SaveData] returns
    true and replaces the file by the former records without those of the
    key, in their order, followed by the new record; the new file decodes to
    that list. *)
Theorem SaveData_moves_key_to_tail (k : FString) (d : list uint8) (t : EDataType)
    (p : FString) (w : World) (Bytes : list uint8) (l : list FSerializedData) :
  Files w !! p = Some Bytes -> StoreFile Bytes l ->
  p ∉ ReadDenied w -> p ∉ WriteDenied w -> valid_text k ->
  fits (SerializeAll (RemoveAll (KeyIs k) l ++ [NewRecord k d t])) ->
  SaveData k d t p w
  = (Returned true,
     AfterWrite p (SerializeAll (RemoveAll (KeyIs k) l ++ [NewRecord k d t])) w)
  /\ DecodeFile (SerializeAll (RemoveAll (KeyIs k) l ++ [NewRecord k d t]))
     = Returned (RemoveAll (KeyIs k) l ++ [NewRecord k d t]).
Proof.
  intros Hfile Hstore Hread Hwrite Hk Hfit. split.
  - rewrite (SaveData_store k d t p w Bytes l Hfile Hstore Hread Hfit).
    rewrite SaveArrayToFile_allowed by exact Hwrite. reflexivity.
  - exact (StoreFile_decode _ _ (StoreFile_Upsert k d t Bytes l Hstore Hk Hfit)).
Qed.

Lemma SaveData_moves_key_to_tail_witness :
  SaveData Health [x64; x00; x00; x00] IntType GameBin TwoRecords
  = (Returned true, AfterWrite GameBin (SerializeAll [ManaRecord; FullHealth]) TwoRecords)
  /\ DecodeFile (SerializeAll [ManaRecord; FullHealth]) = Returned [ManaRecord; FullHealth].
Proof.
  apply (SaveData_moves_key_to_tail Health [x64; x00; x00; x00] IntType GameBin TwoRecords
           (SerializeAll [HealthRecord; ManaRecord]) [HealthRecord; ManaRecord]).
  - vm_compute. reflexivity.
  - solve_StoreFile.
  - solve_not_in.
  - solve_not_in.
  - solve_text.
  - solve_fits.
Defined.

(** X3. Idempotence.  After a [SaveData] that reports success, the same
    call once more reports success and writes the bytes the file already
    has: the files are the same after it. *)
Theorem SaveData_again_changes_nothing (k : FString) (d : list uint8) (t : EDataType)
    (p : FString) (w w1 : World) (l : list FSerializedData) :
  StoreAt p w l -> valid_text k -> p ∉ ReadDenied w ->
  SaveData k d t p w = (Returned true, w1) ->
  exists Bytes,
    Files w1 !! p = Some Bytes
    /\ SaveData k d t p w1 = (Returned true, AfterWrite p Bytes w1)
    /\ Files (AfterWrite p Bytes w1) = Files w1.
Proof.
  intros Hstore Hk Hread Hsave.
  assert (Hwrite : p ∉ WriteDenied w).
  { intros Hin. unfold SaveData in Hsave.
    assert (Hd : forall B, SaveArrayToFile B p w = (false, snd (SaveArrayToFile B p w))).
    { intros B. unfold SaveArrayToFile. rewrite bool_decide_eq_true_2 by exact Hin. reflexivity. }
    destruct (FileExists p w).
    - destruct (LoadFileToArray p w); [|discriminate].
      destruct (ReadExistingData _ _ _); [|discriminate].
      destruct (WriteExistingData _) as [B|]; [|discriminate].
      rewrite (Hd B) in Hsave. discriminate.
    - destruct (WriteExistingData _) as [B|]; [|discriminate].
      rewrite (Hd B) in Hsave. discriminate. }
  destruct (SaveData_success k d t p w w1 l Hstore Hk Hsave) as [-> HS].
  exists (SerializeAll (MutateList (Upsert k d t) l)).
  split; [cbn [AfterWrite Files]; apply lookup_insert_eq|]. split.
  - rewrite (SaveData_store k d t p _ _ _ (lookup_insert_eq _ _ _) HS);
      [| exact Hread | rewrite MutateList_Upsert_idem; apply HS].
    rewrite MutateList_Upsert_idem.
    rewrite SaveArrayToFile_allowed by exact Hwrite. reflexivity.
  - cbn [AfterWrite Files]. apply insert_insert_eq.
Qed.

Lemma SaveData_again_changes_nothing_witness :
  let w1 := AfterWrite GameBin (SerializeAll [HealthRecord]) EmptyWorld in
  exists Bytes,
    Files w1 !! GameBin = Some Bytes
    /\ SaveData Health [x2a; x00; x00; x00] IntType GameBin w1
       = (Returned true, AfterWrite GameBin Bytes w1)
    /\ Files (AfterWrite GameBin Bytes w1) = Files w1.
Proof.
  intros w1.
  apply (SaveData_again_changes_nothing Health [x2a; x00; x00; x00] IntType GameBin
           EmptyWorld w1 []).
  - vm_compute. reflexivity.
  - solve_text.
  - solve_not_in.
  - vm_compute. reflexivity.
Defined.

(** X4. An upsert leaves the other keys alone: after a [SaveData a] that
    reports success, [LoadData b] returns what it returned before, for every
    key [b] that the manager tells apart from [a]. *)
Theorem SaveData_preserves_others (a b : FString) (d : list uint8) (t : EDataType)
    (p : FString) (w w' : World) (l : list FSerializedData)
    (OutData : list uint8) (OutDataType : EDataType) :
  StoreAt p w l -> valid_text a -> p ∉ ReadDenied w ->
  FString_eq a b = false ->
  SaveData a d t p w = (Returned true, w') ->
  fst (LoadData b OutData OutDataType p w') = fst (LoadData b OutData OutDataType p w).
Proof.
  intros Hstore Ha Hread Hab Hsave.
  destruct (SaveData_success a d t p w w' l Hstore Ha Hsave) as [-> HS].
  rewrite (LoadData_store b OutData OutDataType p _ _ _ (lookup_insert_eq _ _ _) HS)
    by exact Hread.
  rewrite (find_MutateList b (Upsert a d t) l). cbn [LastWrite fst]. rewrite Hab.
  unfold StoreAt in Hstore. destruct (Files w !! p) as [Bytes|] eqn:Hfile.
  - rewrite (LoadData_store b OutData OutDataType p w Bytes l Hfile Hstore Hread).
    reflexivity.
  - subst l. unfold LoadData, FileExists. rewrite Hfile. reflexivity.
Qed.

Lemma SaveData_preserves_others_witness :
  fst (LoadData Mana [] IntType GameBin
         (AfterWrite GameBin (SerializeAll [ManaRecord; FullHealth]) TwoRecords))
  = fst (LoadData Mana [] IntType GameBin TwoRecords).
Proof.
  apply (SaveData_preserves_others Health Mana [x64; x00; x00; x00] IntType GameBin
           TwoRecords _ [HealthRecord; ManaRecord]).
  - unfold StoreAt.
    change (Files TwoRecords !! GameBin) with (Some (SerializeAll [HealthRecord; ManaRecord])).
    solve_StoreFile.
  - solve_text.
  - solve_not_in.
  - reflexivity.
  - vm_compute. reflexivity.
Defined.

(** X5. Remove then lookup: after a [DeleteData k] that reports success on
    a store file, [LoadData k] returns false, leaves the output parameters
    and writes no log line. *)
Theorem DeleteData_then_LoadData (k p : FString) (w w' : World) (Bytes : list uint8)
    (l : list FSerializedData) (OutData : list uint8) (OutDataType : EDataType) :
  Files w !! p = Some Bytes -> StoreFile Bytes l ->
  DeleteData k p w = (Returned true, w') ->
  LoadData k OutData OutDataType p w' = (Returned (false, OutData, OutDataType), w').
Proof.
  intros Hfile Hstore Hdel.
  assert (Hread : p ∉ ReadDenied w).
  { intros Hin. unfold DeleteData, FileExists, LoadFileToArray in Hdel. rewrite Hfile in Hdel.
    destruct (decide (p ∈ ReadDenied w)); [discriminate | contradiction]. }
  assert (Hst : StoreAt p w l) by (unfold StoreAt; rewrite Hfile; exact Hstore).
  destruct (DeleteData_success k p w w' l Hst Hdel) as [-> HS].
  rewrite (LoadData_store k OutData OutDataType p _ _ _ (lookup_insert_eq _ _ _) HS)
    by exact Hread.
  cbn [MutateList]. rewrite find_KeyIs_RemoveAll. reflexivity.
Qed.

Lemma DeleteData_then_LoadData_witness :
  let w' := AfterWrite GameBin (SerializeAll [ManaRecord]) TwoRecords in
  LoadData Health [] FloatType GameBin w' = (Returned (false, [], FloatType), w').
Proof.
  intros w'.
  apply (DeleteData_then_LoadData Health GameBin TwoRecords w'
           (SerializeAll [HealthRecord; ManaRecord]) [HealthRecord; ManaRecord]).
  - vm_compute. reflexivity.
  - solve_StoreFile.
  - vm_compute. reflexivity.
Defined.

(** X6. After a [DeleteData] that reports success on a store file, the
    same call once more reports success and writes the bytes the file
    already has. *)
Theorem DeleteData_again_changes_nothing (k p : FString) (w w' : World)
    (Bytes : list uint8) (l : list FSerializedData) :
  Files w !! p = Some Bytes -> StoreFile Bytes l ->
  DeleteData k p w = (Returned true, w') ->
  exists Bytes',
    Files w' !! p = Some Bytes'
    /\ DeleteData k p w' = (Returned true, AfterWrite p Bytes' w')
    /\ Files (AfterWrite p Bytes' w') = Files w'.
Proof.
  intros Hfile Hstore Hdel.
  assert (Hread : p ∉ ReadDenied w).
  { intros Hin. unfold DeleteData, FileExists, LoadFileToArray in Hdel. rewrite Hfile in Hdel.
    destruct (decide (p ∈ ReadDenied w)); [discriminate | contradiction]. }
  assert (Hwrite : p ∉ WriteDenied w).
  { intros Hin. rewrite (DeleteData_store k p w Bytes l Hfile Hstore Hread) in Hdel.
    unfold SaveArrayToFile in Hdel. rewrite bool_decide_eq_true_2 in Hdel by exact Hin.
    discriminate. }
  assert (Hst : StoreAt p w l) by (unfold StoreAt; rewrite Hfile; exact Hstore).
  destruct (DeleteData_success k p w w' l Hst Hdel) as [-> HS].
  exists (SerializeAll (MutateList (Remove k) l)).
  split; [cbn [AfterWrite Files]; apply lookup_insert_eq|]. split.
  - rewrite (DeleteData_store k p _ _ _ (lookup_insert_eq _ _ _) HS) by exact Hread.
    cbn [MutateList]. rewrite RemoveAll_idem.
    rewrite SaveArrayToFile_allowed by exact Hwrite. reflexivity.
  - cbn [AfterWrite Files]. apply insert_insert_eq.
Qed.

Lemma DeleteData_again_changes_nothing_witness :
  let w' := AfterWrite GameBin (SerializeAll [ManaRecord]) TwoRecords in
  exists Bytes',
    Files w' !! GameBin = Some Bytes'
    /\ DeleteData Health GameBin w' = (Returned true, AfterWrite GameBin Bytes' w')
    /\ Files (AfterWrite GameBin Bytes' w') = Files w'.
Proof.
  intros w'.
  apply (DeleteData_again_changes_nothing Health GameBin TwoRecords w'
           (SerializeAll [HealthRecord; ManaRecord]) [HealthRecord; ManaRecord]).
  - vm_compute. reflexivity.
  - solve_StoreFile.
  - vm_compute. reflexivity.
Defined.

(** X7. [SaveData] and [DeleteData] touch no file but the one at their
    path and write no log line, whatever they come to. *)
Theorem mutators_touch_one_file (k : FString) (d : list uint8) (t : EDataType)
    (p q : FString) (w : World) :
  q <> p ->
  Files (snd (SaveData k d t p w)) !! q = Files w !! q
  /\ Files (snd (DeleteData k p w)) !! q = Files w !! q
  /\ LogTemp (snd (SaveData k d t p w)) = LogTemp w
  /\ LogTemp (snd (DeleteData k p w)) = LogTemp w.
Proof.
  intros Hq.
  assert (Hsave : forall B, Files (snd (SaveArrayToFile B p w)) !! q = Files w !! q
                            /\ LogTemp (snd (SaveArrayToFile B p w)) = LogTemp w).
  { intros B. unfold SaveArrayToFile. cbn [snd Files LogTemp]. split; [|reflexivity].
    destruct (bool_decide (p ∈ WriteDenied w)); [reflexivity|].
    apply lookup_insert_ne. congruence. }
  unfold SaveData, DeleteData.
  destruct (FileExists p w); [destruct (LoadFileToArray p w) as [ByteArray|]|].
  - destruct (ReadExistingData _ _ _) as [E|]; [|repeat split; reflexivity].
    destruct (WriteExistingData (RemoveAll _ E ++ _)) as [B1|],
             (WriteExistingData (RemoveAll _ E)) as [B2|];
      repeat match goal with
             | |- context [SaveArrayToFile ?B p w] =>
                 let H1 := fresh in let H2 := fresh in
                 destruct (Hsave B) as [H1 H2]; destruct (SaveArrayToFile B p w)
             end; cbn [snd] in *; repeat split; try assumption; reflexivity.
  - repeat split; reflexivity.
  - destruct (WriteExistingData _) as [B|]; [|repeat split; reflexivity].
    destruct (Hsave B) as [H1 H2]. destruct (SaveArrayToFile B p w).
    cbn [snd] in *. repeat split; try assumption; reflexivity.
Qed.

Lemma mutators_touch_one_file_witness :
  Files (snd (SaveData Health [x64; x00; x00; x00] IntType Mana TwoRecords)) !! GameBin
  = Files TwoRecords !! GameBin
  /\ Files (snd (DeleteData Health Mana TwoRecords)) !! GameBin = Files TwoRecords !! GameBin
  /\ LogTemp (snd (SaveData Health [x64; x00; x00; x00] IntType Mana TwoRecords))
     = LogTemp TwoRecords
  /\ LogTemp (snd (DeleteData Health Mana TwoRecords)) = LogTemp TwoRecords.
Proof.
  apply (mutators_touch_one_file Health [x64; x00; x00; x00] IntType Mana GameBin TwoRecords).
  intros H. vm_compute in H. discriminate.
Defined.

(** X8. When [LoadData] returns false the output parameters hold what they
    held before the call; when it returns true they hold the data and the
    type of a record that the search has read from the file and whose key
    equals the key asked for, and nothing else has changed. *)
Theorem LoadData_outputs (k : FString) (OutData : list uint8) (OutDataType : EDataType)
    (p : FString) (w w' : World) (b : bool) (OutData' : list uint8)
    (OutDataType' : EDataType) :
  LoadData k OutData OutDataType p w = (Returned (b, OutData', OutDataType'), w') ->
  (b = false -> OutData' = OutData /\ OutDataType' = OutDataType)
  /\ (b = true ->
      exists ByteArray r,
        LoadFileToArray p w = Some ByteArray
        /\ FindData (length ByteArray) k (MemoryReader ByteArray) = Returned (Some r)
        /\ FString_eq (Key r) k = true
        /\ OutData' = Data r /\ OutDataType' = DataType r /\ w' = w).
Proof.
  unfold LoadData. destruct (FileExists p w).
  - destruct (LoadFileToArray p w) as [ByteArray|].
    + destruct (FindData _ k _) as [[r|]|] eqn:Hfind; [| |discriminate].
      * intros [= <- <- <- <-]. split; [discriminate|]. intros _.
        exists ByteArray, r. repeat split; try reflexivity; try exact Hfind.
        exact (FindData_Some_key _ _ _ _ Hfind).
      * intros [= <- <- <- <-]. split; [split; reflexivity | discriminate].
    + intros [= <- <- <- <-]. split; [split; reflexivity | discriminate].
  - intros [= <- <- <- <-]. split; [split; reflexivity | discriminate].
Qed.

Lemma LoadData_outputs_witness :
  exists ByteArray r,
    LoadFileToArray GameBin TwoRecords = Some ByteArray
    /\ FindData (length ByteArray) Mana (MemoryReader ByteArray) = Returned (Some r)
    /\ FString_eq (Key r) Mana = true
    /\ [x00; x00; x80; x3f] = Data r /\ FloatType = DataType r
    /\ TwoRecords = TwoRecords.
Proof.
  assert (Hload : LoadData Mana [] IntType GameBin TwoRecords
                  = (Returned (true, [x00; x00; x80; x3f], FloatType), TwoRecords))
    by (vm_compute; reflexivity).
  exact (proj2 (LoadData_outputs Mana [] IntType GameBin TwoRecords TwoRecords
                  true [x00; x00; x80; x3f] FloatType Hload) eq_refl).
Defined.

(** X9. [LoadData] returns the first record that has the key and does not
    look at the bytes behind it: later records of the same key and bytes
    that are no record at all make no difference. *)
Theorem LoadData_first_match (k : FString) (OutData : list uint8)
    (OutDataType : EDataType) (p : FString) (w : World)
    (l1 : list FSerializedData) (r : FSerializedData) (rest : list uint8) :
  Files w !! p = Some (SerializeAll (l1 ++ [r]) ++ rest) -> p ∉ ReadDenied w ->
  Forall valid_record l1 -> valid_record r ->
  List.find (KeyIs k) l1 = None -> FString_eq (Key r) k = true ->
  LoadData k OutData OutDataType p w = (Returned (true, Data r, DataType r), w).
Proof.
  intros Hfile Hread Hl1 Hr Hnone Hkey. unfold LoadData, FileExists, LoadFileToArray.
  rewrite Hfile. destruct (decide (p ∈ ReadDenied w)); [contradiction|].
  rewrite (FindData_first k l1 r rest _ Hl1 Hr Hnone Hkey) by lia. reflexivity.
Qed.

Lemma LoadData_first_match_witness :
  let w := WorldWith GameBin (SerializeAll ([HealthRecord] ++ [ManaRecord]) ++ [xff; xff]) ∅ in
  LoadData Mana [] IntType GameBin w
  = (Returned (true, [x00; x00; x80; x3f], FloatType), w).
Proof.
  intros w.
  apply (LoadData_first_match Mana [] IntType GameBin w [HealthRecord] ManaRecord [xff; xff]).
  - vm_compute. reflexivity.
  - solve_not_in.
  - repeat (constructor; [solve_valid_record|]). constructor.
  - solve_valid_record.
  - reflexivity.
  - reflexivity.
Defined.

(** X10. A store file cut off right behind a type tag, or right behind a
    tag and a key, still decodes: the last record gets the empty key and
    the empty data, or the key and the empty data, that the failed reads
    leave. *)
Theorem DecodeFile_pads_truncated_record (l : list FSerializedData) (tag : EDataType)
    (k : FString) :
  Forall valid_record l ->
  DecodeFile (SerializeAll l ++ [tag])
  = Returned (l ++ [{| DataType := tag; Key := []; Data := [] |}])
  /\ (valid_text k -> Z.of_nat (length k) < MAX_int32 ->
      DecodeFile (SerializeAll l ++ [tag] ++ WriteFString k)
      = Returned (l ++ [{| DataType := tag; Key := k; Data := [] |}])).
Proof.
  intros Hl. unfold DecodeFile. split.
  - rewrite ReadExistingData_app by (trivial || lia).
    rewrite length_app. cbn [length]. rewrite Nat.add_comm.
    apply ReadExistingData_lone_tag.
  - intros Hk Hlen. rewrite ReadExistingData_app by (trivial || lia).
    rewrite length_app, (length_app [tag]). cbn [length].
    rewrite Nat.add_comm. cbn [Nat.add app].
    apply (ReadExistingData_tag_key _ tag k l); assumption.
Qed.

Lemma DecodeFile_pads_truncated_record_witness :
  DecodeFile (SerializeAll [HealthRecord] ++ [IntType])
  = Returned ([HealthRecord] ++ [{| DataType := IntType; Key := []; Data := [] |}])
  /\ DecodeFile (SerializeAll [HealthRecord] ++ [IntType] ++ WriteFString Mana)
     = Returned ([HealthRecord] ++ [{| DataType := IntType; Key := Mana; Data := [] |}]).
Proof.
  assert (Hl : Forall valid_record [HealthRecord])
    by (repeat (constructor; [solve_valid_record|]); constructor).
  destruct (DecodeFile_pads_truncated_record [HealthRecord] IntType Mana Hl) as [H1 H2].
  split; [exact H1|]. apply H2; [solve_text | vm_compute; reflexivity].
Defined.

(** X11. An integer saved with [IntToByteArray] under the type [IntType]
    is loaded back with that type, and [ByteArrayToInt] of the loaded
    data is the integer. *)
Theorem SaveData_Int_then_LoadData (k : FString) (v : Z) (p : FString)
    (w w1 : World) (l : list FSerializedData)
    (OutData : list uint8) (OutDataType : EDataType) :
  StoreAt p w l -> valid_text k -> p ∉ ReadDenied w ->
  MIN_int32 <= v <= MAX_int32 ->
  SaveData k (IntToByteArray v) IntType p w = (Returned true, w1) ->
  exists d,
    LoadData k OutData OutDataType p w1 = (Returned (true, d, IntType), w1)
    /\ ByteArrayToInt d = v.
Proof.
  intros Hstore Hk Hread Hv Hsave.
  destruct (SaveData_success k _ _ p w w1 l Hstore Hk Hsave) as [-> HS].
  exists (IntToByteArray v). split.
  - rewrite (LoadData_store k OutData OutDataType p _ _ _ (lookup_insert_eq _ _ _) HS)
      by exact Hread.
    rewrite (find_MutateList k (Upsert k (IntToByteArray v) IntType) l).
    cbn [LastWrite]. rewrite FString_eq_refl. reflexivity.
  - unfold ByteArrayToInt, IntToByteArray, MemoryReader.
    rewrite <- (app_nil_r (le_bytes 4 v)), ReadInt32_app by exact Hv. reflexivity.
Qed.

Lemma SaveData_Int_then_LoadData_witness :
  let w1 := AfterWrite GameBin (SerializeAll [HealthRecord]) EmptyWorld in
  exists d,
    LoadData Health [] FloatType GameBin w1 = (Returned (true, d, IntType), w1)
    /\ ByteArrayToInt d = 42.
Proof.
  intros w1.
  apply (SaveData_Int_then_LoadData Health 42 GameBin EmptyWorld w1 []).
  - vm_compute. reflexivity.
  - solve_text.
  - solve_not_in.
  - unfold MIN_int32, MAX_int32. lia.
  - vm_compute. reflexivity.
Defined.

(** X12. For the values below 256 every overload of [EnumToByteArray] is
    decoded by [ByteArrayToEnum] to the value that was encoded. *)
Theorem ByteArrayToEnum_small_values (v : Z) :
  0 <= v < 256 ->
  uint8_to_Z (ByteArrayToEnum (EnumToByteArray_uint16 v)) = v
  /\ uint8_to_Z (ByteArrayToEnum (EnumToByteArray_uint32 v)) = v
  /\ uint8_to_Z (ByteArrayToEnum (EnumToByteArray_uint64 v)) = v
  /\ uint8_to_Z (ByteArrayToEnum (EnumToByteArray_uint8 (uint8_of_Z v))) = v.
Proof.
  intros Hv.
  assert (E : forall n, uint8_to_Z (ByteArrayToEnum (le_bytes (S n) v)) = v).
  { intros n. unfold ByteArrayToEnum. rewrite ReadUInt8_le_bytes. cbn [fst].
    rewrite uint8_to_of_Z, Z.mod_mod, Z.mod_small by lia. reflexivity. }
  unfold EnumToByteArray_uint16, EnumToByteArray_uint32, EnumToByteArray_uint64.
  rewrite !E. repeat split.
  change (ByteArrayToEnum (EnumToByteArray_uint8 (uint8_of_Z v))) with (uint8_of_Z v).
  rewrite uint8_to_of_Z, Z.mod_small by lia. reflexivity.
Qed.

Lemma ByteArrayToEnum_small_values_witness :
  uint8_to_Z (ByteArrayToEnum (EnumToByteArray_uint16 255)) = 255
  /\ uint8_to_Z (ByteArrayToEnum (EnumToByteArray_uint32 255)) = 255
  /\ uint8_to_Z (ByteArrayToEnum (EnumToByteArray_uint64 255)) = 255
  /\ uint8_to_Z (ByteArrayToEnum (EnumToByteArray_uint8 (uint8_of_Z 255))) = 255.
Proof.
  apply (ByteArrayToEnum_small_values 255). lia.
Defined.

(** X13. The fixed-width decoders read the front of the array alone:
    [ByteArrayToInt], [ByteArrayToFloat] and [ByteArrayToBool] depend on
    the first four bytes, [ByteArrayToEnum] on the first byte. *)
Theorem decoders_read_a_prefix (ByteArray : list uint8) :
  ByteArrayToInt ByteArray = ByteArrayToInt (take 4 ByteArray)
  /\ ByteArrayToFloat ByteArray = ByteArrayToFloat (take 4 ByteArray)
  /\ ByteArrayToBool ByteArray = ByteArrayToBool (take 4 ByteArray)
  /\ ByteArrayToEnum ByteArray = ByteArrayToEnum (take 1 ByteArray).
Proof.
  assert (HLE : forall d bs, fst (ReadLE 4 d (MemoryReader bs))
                             = fst (ReadLE 4 d (MemoryReader (take 4 bs)))).
  { intros d bs. unfold ReadLE. pose proof (Serialize_take 4 bs) as H.
    destruct (Serialize 4 (MemoryReader bs)) as [[x|] ?],
             (Serialize 4 (MemoryReader (take 4 bs))) as [[y|] ?];
      cbn [fst] in *; congruence. }
  repeat split.
  - unfold ByteArrayToInt, ReadInt32. specialize (HLE (0 mod 2 ^ 32) ByteArray).
    destruct (ReadLE 4 _ (MemoryReader ByteArray)),
             (ReadLE 4 _ (MemoryReader (take 4 ByteArray))).
    cbn [fst] in *. congruence.
  - unfold ByteArrayToFloat. apply HLE.
  - unfold ByteArrayToBool, ReadBool. specialize (HLE 0 ByteArray).
    destruct (ReadLE 4 _ (MemoryReader ByteArray)),
             (ReadLE 4 _ (MemoryReader (take 4 ByteArray))).
    cbn [fst] in *. congruence.
  - unfold ByteArrayToEnum, ReadUInt8. pose proof (Serialize_take 1 ByteArray) as H.
    destruct (Serialize 1 (MemoryReader ByteArray)) as [[[|x ?]|] ?],
             (Serialize 1 (MemoryReader (take 1 ByteArray))) as [[[|y ?]|] ?];
      cbn [fst] in *; congruence.
Qed.

(** X14. The store is a dictionary in which the last write wins.  After a
    non-empty run of mutations that all report success, [LoadData k]
    returns the data and the type of the last [SaveData] of a key equal to
    [k], unless a [DeleteData] of such a key came later; when the run has
    neither, it returns what was under [k] before. *)
Theorem store_is_a_dictionary (p : FString) (w w' : World)
    (l0 : list FSerializedData) (ms : list Mutation) (k : FString)
    (OutData : list uint8) (OutDataType : EDataType) :
  StoreAt p w l0 ->
  Forall (fun m => valid_text (MutationKey m)) ms ->
  ms <> [] -> p ∉ ReadDenied w ->
  MutateAll ms p w = Some w' ->
  LoadData k OutData OutDataType p w'
  = (LookupResult (LastWrite k ms (Stored <$> List.find (KeyIs k) l0))
       OutData OutDataType, w').
Proof.
  intros Hstore Hms Hne Hread Hrun.
  destruct (MutateAll_store p ms w w' l0 Hstore Hms Hrun) as [Hfinal Hsome].
  destruct (MutateAll_denied p ms w w' l0 Hstore Hms Hrun) as (Hr & _).
  destruct (Hsome Hne) as [Bytes Hfile].
  unfold StoreAt in Hfinal. rewrite Hfile in Hfinal.
  rewrite (LoadData_store k OutData OutDataType p w' Bytes _ Hfile Hfinal)
    by (rewrite Hr; exact Hread).
  rewrite find_fold_MutateList. reflexivity.
Qed.

Lemma store_is_a_dictionary_witness :
  let ms := [Upsert Health [x2a; x00; x00; x00] IntType;
             Upsert Mana [x00; x00; x80; x3f] FloatType;
             Remove Health] in
  let w' := AfterWrite GameBin (SerializeAll [ManaRecord])
              (AfterWrite GameBin (SerializeAll [HealthRecord; ManaRecord])
                 (AfterWrite GameBin (SerializeAll [HealthRecord]) EmptyWorld)) in
  LoadData Health [] BoolType GameBin w' = (Returned (false, [], BoolType), w')
  /\ LoadData Mana [] BoolType GameBin w'
     = (Returned (true, [x00; x00; x80; x3f], FloatType), w').
Proof.
  intros ms w'.
  assert (Hstore : StoreAt GameBin EmptyWorld []) by (vm_compute; reflexivity).
  assert (Hms : Forall (fun m => valid_text (MutationKey m)) ms)
    by (repeat (constructor; [solve_text|]); constructor).
  assert (Hne : ms <> []) by discriminate.
  assert (Hread : GameBin ∉ ReadDenied EmptyWorld) by solve_not_in.
  assert (Hrun : MutateAll ms GameBin EmptyWorld = Some w') by (vm_compute; reflexivity).
  split.
  - exact (store_is_a_dictionary GameBin EmptyWorld w' [] ms Health [] BoolType
             Hstore Hms Hne Hread Hrun).
  - exact (store_is_a_dictionary GameBin EmptyWorld w' [] ms Mana [] BoolType
             Hstore Hms Hne Hread Hrun).
Defined.

(** X15. [operator<<] of [FSerializedData] reads back the record it wrote,
    whatever bytes follow, and leaves the reader in front of them with the
    error flag clear. *)
Theorem FSerializedData_round_trip (r : FSerializedData) (rest : list uint8) :
  valid_text (Key r) -> fits (WriteFSerializedData r) ->
  ReadFSerializedData
    {| Remaining := WriteFSerializedData r ++ rest; ArIsError := false |}
  = Returned (r, {| Remaining := rest; ArIsError := false |}).
Proof.
  intros Hk Hfit. apply ReadFSerializedData_Write. split; assumption.
Qed.

Lemma FSerializedData_round_trip_witness :
  ReadFSerializedData
    {| Remaining := WriteFSerializedData ManaRecord ++ [x01]; ArIsError := false |}
  = Returned (ManaRecord, {| Remaining := [x01]; ArIsError := false |}).
Proof.
  apply (FSerializedData_round_trip ManaRecord [x01]); [solve_text | solve_fits].
Defined.

(** X16. A store file decodes to the records it was made of, and to no
    other list of records. *)
Theorem store_file_round_trip (Bytes : list uint8) (l : list FSerializedData) :
  StoreFile Bytes l ->
  DecodeFile Bytes = Returned l
  /\ (forall l', StoreFile Bytes l' -> l' = l).
Proof.
  intros HS. split; [exact (StoreFile_decode _ _ HS)|].
  intros l' HS'. pose proof (StoreFile_decode _ _ HS) as E.
  rewrite (StoreFile_decode _ _ HS') in E. congruence.
Qed.

Lemma store_file_round_trip_witness :
  DecodeFile (SerializeAll [HealthRecord; ManaRecord]) = Returned [HealthRecord; ManaRecord]
  /\ (forall l', StoreFile (SerializeAll [HealthRecord; ManaRecord]) l' ->
                 l' = [HealthRecord; ManaRecord]).
Proof.
  apply (store_file_round_trip (SerializeAll [HealthRecord; ManaRecord])
           [HealthRecord; ManaRecord]).
  solve_StoreFile.
Defined.

(** X17. Two calls of [PrepareFilePath] give the same path exactly when
    the file names are equal and the formats are equal or are [BIN] and
    [JSON]: [JSON] has no case of its own and gets the extension of [BIN]. *)
Theorem PrepareFilePath_same_file (Saved : FString) (D1 D2 : FString -> bool)
    (n1 n2 : FString) (f1 f2 : ESaveFileFormat) :
  fst (PrepareFilePath Saved D1 n1 f1) = fst (PrepareFilePath Saved D2 n2 f2)
  <-> n1 = n2
      /\ (f1 = f2 \/ (f1 = BIN /\ f2 = JSON) \/ (f1 = JSON /\ f2 = BIN)).
Proof.
  unfold PrepareFilePath. cbn [fst]. split.
  - intros H. apply app_inv_head, app_inv_head in H.
    apply app_inj_2 in H; [|destruct f1, f2; reflexivity].
    destruct H as [-> H]. split; [reflexivity|].
    destruct f1, f2; try (left; reflexivity); try (right; left; split; reflexivity);
      try (right; right; split; reflexivity); vm_compute in H; discriminate.
  - intros [-> [-> | [[-> ->] | [-> ->]]]]; reflexivity.
Qed.

Lemma PrepareFilePath_same_file_witness :
  fst (PrepareFilePath (TEXT "Saved") (fun _ => true) GetDefaultSaveFileName JSON)
  = fst (PrepareFilePath (TEXT "Saved") (fun _ => false) GetDefaultSaveFileName BIN)
  /\ fst (PrepareFilePath (TEXT "Saved") (fun _ => true) GetDefaultSaveFileName SAV)
     <> fst (PrepareFilePath (TEXT "Saved") (fun _ => true) GetDefaultSaveFileName DAT).
Proof.
  split.
  - apply (proj2 (PrepareFilePath_same_file (TEXT "Saved") (fun _ => true) (fun _ => false)
                    GetDefaultSaveFileName GetDefaultSaveFileName JSON BIN)).
    split; [reflexivity|]. right. right. split; reflexivity.
  - intros H.
    apply (proj1 (PrepareFilePath_same_file (TEXT "Saved") (fun _ => true) (fun _ => true)
                    GetDefaultSaveFileName GetDefaultSaveFileName SAV DAT)) in H.
    destruct H as [_ [H | [[H _] | [H _]]]]; discriminate.
Defined.

(** X18. After [DeleteFile] has deleted an existing store file, [SaveData]
    starts a new one: it returns true, the file is the new record alone, and
    [LoadData] of every other key returns false. *)
Theorem DeleteFile_then_SaveData (k b : FString) (d : list uint8) (t : EDataType)
    (p : FString) (w : World) (OutData : list uint8) (OutDataType : EDataType) :
  DoesFileExist p w = true -> p ∉ ReadDenied w -> p ∉ WriteDenied w ->
  valid_text k -> fits (SerializeAll [NewRecord k d t]) ->
  let w1 := DeleteFile true p w in
  let w2 := AfterWrite p (SerializeAll [NewRecord k d t]) w1 in
  SaveData k d t p w1 = (Returned true, w2)
  /\ DecodeFile (SerializeAll [NewRecord k d t]) = Returned [NewRecord k d t]
  /\ (FString_eq k b = false ->
      LoadData b OutData OutDataType p w2 = (Returned (false, OutData, OutDataType), w2)).
Proof.
  intros Hex Hread Hwrite Hk Hfit w1 w2.
  assert (Hfile : Files w1 !! p = None).
  { unfold w1, DeleteFile. unfold DoesFileExist in Hex. rewrite Hex.
    cbn [Files]. apply lookup_delete_eq. }
  assert (Hw1 : ReadDenied w1 = ReadDenied w /\ WriteDenied w1 = WriteDenied w).
  { unfold w1, DeleteFile. unfold DoesFileExist in Hex. rewrite Hex. split; reflexivity. }
  destruct Hw1 as [Hr Hw].
  pose proof (StoreFile_single k d t Hk Hfit) as HS.
  split; [|split].
  - rewrite (SaveData_free k d t p w1 Hfile Hfit).
    rewrite SaveArrayToFile_allowed by (rewrite Hw; exact Hwrite). reflexivity.
  - exact (StoreFile_decode _ _ HS).
  - intros Hkb.
    rewrite (LoadData_store b OutData OutDataType p w2 _ _ (lookup_insert_eq _ _ _) HS)
      by (cbn [w2 AfterWrite ReadDenied]; rewrite Hr; exact Hread).
    cbn [List.find]. unfold KeyIs. cbn [Key NewRecord]. rewrite Hkb. reflexivity.
Qed.

Lemma DeleteFile_then_SaveData_witness :
  let w1 := DeleteFile true GameBin TwoRecords in
  let w2 := AfterWrite GameBin (SerializeAll [FullHealth]) w1 in
  SaveData Health [x64; x00; x00; x00] IntType GameBin w1 = (Returned true, w2)
  /\ DecodeFile (SerializeAll [FullHealth]) = Returned [FullHealth]
  /\ LoadData Mana [] IntType GameBin w2 = (Returned (false, [], IntType), w2).
Proof.
  destruct (DeleteFile_then_SaveData Health Mana [x64; x00; x00; x00] IntType GameBin
              TwoRecords [] IntType) as (H1 & H2 & H3).
  - vm_compute. reflexivity.
  - solve_not_in.
  - solve_not_in.
  - solve_text.
  - solve_fits.
  - split; [exact H1|]. split; [exact H2 | exact (H3 eq_refl)].
Defined.

